(** * ariba.mapping: a shallow embedding of [src/ariba/mapping.py]

    The module is glue around external tools (bowtie2, samtools, awk) and two
    small readers over pysam alignment records.  The embedding keeps the
    shape of the Python code:

    - strings are [string], Python integers are [Z];
    - a SAM flag is a [Z] inspected with [Z.land], as pysam and awk do;
    - the file system is a finite map from paths to contents;
    - the effects of [run_bowtie2] and [bowtie2_index] (external
      invocations, verbose echo, [os.unlink]) are threaded through a small
      state-and-exception monad that records every effect in a trace;
    - what an external tool does to the file system is a parameter
      ([exec]) of the development: every theorem holds for every tool
      behaviour unless it names an assumption on it. *)

From Stdlib Require Import ZArith Strings.String Strings.Ascii Numbers.DecimalString.
From stdpp Require Import gmap strings list fin_maps.

Local Open Scope string_scope.
Local Open Scope Z_scope.
Local Open Scope list_scope.

(* ===================================================================== *)
(** * Python values                                                       *)
(* ===================================================================== *)

Module Py.

(** [str(n)] for a Python integer. *)
Definition str (n : Z) : string := NilZero.string_of_int (Z.to_int n).

(** [sep.join(parts)]. *)
Definition join (sep : string) (parts : list string) : string :=
  String.concat sep parts.

(** [s[::-1]]. *)
Definition reversed (s : string) : string :=
  string_of_list_ascii (reverse (list_ascii_of_string s)).

(** [dict(zip(x, y))] on characters, the table built by [str.maketrans(x, y)]. *)
Fixpoint maketrans (x y : string) : list (ascii * ascii) :=
  match x, y with
  | String a x', String b y' => (a, b) :: maketrans x' y'
  | _, _ => []
  end.

(** One character through a translation table: the first entry wins,
    characters without an entry are left alone. *)
Fixpoint translate_char (tbl : list (ascii * ascii)) (c : ascii) : ascii :=
  match tbl with
  | [] => c
  | (a, b) :: tbl' => if Ascii.eqb a c then b else translate_char tbl' c
  end.

(** [s.translate(tbl)]. *)
Fixpoint translate (tbl : list (ascii * ascii)) (s : string) : string :=
  match s with
  | EmptyString => EmptyString
  | String c s' => String (translate_char tbl c) (translate tbl s')
  end.

(** [int(a / b)]: true division followed by truncation towards zero.  The
    float quotient of 500 by a machine-sized integer truncates to the same
    integer as the exact quotient, so the truncated exact quotient is used.
    Division by zero raises, modelled by [None]. *)
Definition int_truediv (a b : Z) : option Z :=
  if b =? 0 then None else Some (Z.quot a b).

(** The exceptions that leave the functions of the module. *)
Inductive exn : Type :=
  | Error (msg : string)            (* ariba.mapping.Error *)
  | SystemExit (cmd : string)       (* a failed external invocation *)
  | FileNotFoundError (path : string)
  | PermissionError (path : string)
  | ZeroDivisionError.

Inductive result (A : Type) : Type :=
  | Ok (a : A)
  | Raise (e : exn).
Arguments Ok {A} a.
Arguments Raise {A} e.

End Py.

(* ===================================================================== *)
(** * Collaborator data types: pysam records and pyfastaq sequences       *)
(* ===================================================================== *)

(** The value of an optional tag of an alignment record. *)
Inductive tag_value : Type :=
  | TagInt (v : Z)
  | TagStr (s : string).

(** Sequence and quality as the alignment reader hands them over: text, or
    bytes in the binary representation. *)
Inductive raw_text : Type :=
  | Text (s : string)
  | Binary (b : list Byte.byte).

(** A pysam alignment record, with the fields this module reads. *)
Record AlignedSegment : Type := {
  qname : string;
  flag : Z;
  seq : raw_text;
  qual : raw_text;
  tags : list (string * tag_value)
}.

(** SAM flag bits. *)
Definition FUNMAP : Z := 4.
Definition FMUNMAP : Z := 8.
Definition FREVERSE : Z := 16.
Definition FREAD1 : Z := 64.
Definition FREAD2 : Z := 128.

Definition flag_has (f bit : Z) : bool := negb (Z.land f bit =? 0).

Definition is_reverse (sam : AlignedSegment) : bool := flag_has (flag sam) FREVERSE.
Definition is_read1 (sam : AlignedSegment) : bool := flag_has (flag sam) FREAD1.
Definition is_read2 (sam : AlignedSegment) : bool := flag_has (flag sam) FREAD2.

(** [sam.opt(tag)]: the first tag of that name, [None] for the [KeyError]. *)
Fixpoint opt_lookup (tag : string) (l : list (string * tag_value)) : option tag_value :=
  match l with
  | [] => None
  | (k, v) :: l' => if String.eqb k tag then Some v else opt_lookup tag l'
  end.

Definition opt (sam : AlignedSegment) (tag : string) : option tag_value :=
  opt_lookup tag (tags sam).

(** A pyfastaq [Fastq] value object. *)
Record Fastq : Type := {
  fq_id : string;
  fq_seq : string;
  fq_qual : string
}.

(** The complement table of pyfastaq's [Fasta.revcomp]. *)
Definition revcomp_table : list (ascii * ascii) :=
  Py.maketrans "ATCGatcg" "TAGCtagc".

(** [Fastq.revcomp]: the bases are translated through the complement table
    and reversed, the quality string is reversed. *)
Definition revcomp (fq : Fastq) : Fastq :=
  {| fq_id := fq_id fq;
     fq_seq := Py.reversed (Py.translate revcomp_table (fq_seq fq));
     fq_qual := Py.reversed (fq_qual fq) |}.

(** Modelled from the spec: [common.decode] is not under src/.  Bases and
    quality are taken verbatim when they are text and decoded into text when
    the source representation is binary. *)
Definition decode (x : raw_text) : string :=
  match x with
  | Text s => s
  | Binary b => string_of_list_byte b
  end.

(* ===================================================================== *)
(** * sam_to_fastq                                                        *)
(* ===================================================================== *)

Definition pairing_error (name : string) : Py.exn :=
  Py.Error ("Read " +:+ name +:+
            " must be first or second of pair according to flag. Cannot continue").

Definition sam_to_fastq (sam : AlignedSegment) : Py.result Fastq :=
  let name := qname sam in
  let named :=
    if is_read1 sam then Py.Ok (name +:+ "/1")
    else if is_read2 sam then Py.Ok (name +:+ "/2")
    else Py.Raise (pairing_error name) in
  match named with
  | Py.Raise e => Py.Raise e
  | Py.Ok name =>
      let seq := {| fq_id := name;
                    fq_seq := decode (seq sam);
                    fq_qual := decode (qual sam) |} in
      let seq := if is_reverse sam then revcomp seq else seq in
      Py.Ok seq
  end.

(* ===================================================================== *)
(** * get_total_alignment_score                                           *)
(* ===================================================================== *)

(** [total += sam.opt('AS')] under [try: ... except: pass].  A missing tag
    raises [KeyError], adding a string to an integer raises [TypeError];
    both are swallowed and leave [total] as it was. *)
Definition add_score (total : Z) (sam : AlignedSegment) : Z :=
  match opt sam "AS" with
  | Some (TagInt v) => total + v
  | Some (TagStr _) => total
  | None => total
  end.

(** The argument is the sequence of records that
    [sam_reader.fetch(until_eof=True)] yields for the opened file. *)
Definition get_total_alignment_score (bam : list AlignedSegment) : Z :=
  fold_left add_score bam 0.

(* ===================================================================== *)
(** * The awk filter of run_bowtie2                                       *)
(* ===================================================================== *)

Module Awk.

(** The fragment of awk expressions the filter is written in. *)
Inductive expr : Type :=
  | Field (i : nat)
  | Num (n : Z)
  | And (a b : expr)          (* the bitwise and(a, b) of gawk *)
  | Not (a : expr)            (* !(a) *)
  | Or (a b : expr).          (* a || b *)

Fixpoint render (e : expr) : string :=
  match e with
  | Field i => "$" +:+ Py.str (Z.of_nat i)
  | Num n => Py.str n
  | And a b => "and(" +:+ render a +:+ "," +:+ render b +:+ ")"
  | Not a => "!(" +:+ render a +:+ ")"
  | Or a b => render a +:+ " || " +:+ render b
  end.

Definition of_bool (b : bool) : Z := if b then 1 else 0.

(** Numeric value of an expression on a line whose fields are numbers. *)
Fixpoint eval (fields : nat -> Z) (e : expr) : Z :=
  match e with
  | Field i => fields i
  | Num n => n
  | And a b => Z.land (eval fields a) (eval fields b)
  | Not a => of_bool (eval fields a =? 0)
  | Or a b => of_bool (negb (eval fields a =? 0) || negb (eval fields b =? 0))
  end.

(** A pattern without action prints the line when the pattern is true. *)
Definition prints (fields : nat -> Z) (pattern : expr) : bool :=
  negb (eval fields pattern =? 0).

End Awk.

(** The pattern of the filter stage: [!(and($2,4)) || !(and($2,8))]. *)
Definition both_unmapped_pattern : Awk.expr :=
  Awk.Or (Awk.Not (Awk.And (Awk.Field 2) (Awk.Num 4)))
         (Awk.Not (Awk.And (Awk.Field 2) (Awk.Num 8))).

(** The stage as [run_bowtie2] appends it to the pipeline. *)
Definition remove_both_unmapped_stage : string :=
  " | awk ' " +:+ Awk.render both_unmapped_pattern +:+ " ' ".

(** The second field of a SAM line is the flag. *)
Definition sam_fields (f : Z) (i : nat) : Z :=
  match i with
  | 2%nat => f
  | _ => 0
  end.

(** Whether the filter stage lets a record with flag [f] through. *)
Definition filter_keeps (f : Z) : bool :=
  Awk.prints (sam_fields f) both_unmapped_pattern.

(* ===================================================================== *)
(** * The world: files, external tools, and the effect monad              *)
(* ===================================================================== *)

(** What the functions of the module do to the outside, in order. *)
Inductive event : Type :=
  | Echo (cmd : string)        (* the command line printed in verbose mode *)
  | Exec (cmd : string)        (* an external invocation through the shell *)
  | Unlink (path : string).    (* a file removed by os.unlink *)

Record world : Type := {
  files : gmap string string;  (* path |-> contents *)
  trace : list event;
  undeletable : gset string    (* paths os.unlink is not permitted to remove *)
}.

Definition M (A : Type) : Type := world -> Py.result A * world.

Definition ret {A} (a : A) : M A := fun w => (Py.Ok a, w).

Definition raise {A} (e : Py.exn) : M A := fun w => (Py.Raise e, w).

Definition bind {A B} (m : M A) (k : A -> M B) : M B :=
  fun w =>
    match m w with
    | (Py.Ok a, w') => k a w'
    | (Py.Raise e, w') => (Py.Raise e, w')
    end.

Notation "x <- m ;; k" := (bind m (fun x => k))
  (at level 100, m at next level, right associativity).
Notation "m ;; k" := (bind m (fun _ => k))
  (at level 100, right associativity).

Definition emit (e : event) : M unit :=
  fun w => (Py.Ok tt, {| files := files w; trace := trace w ++ [e];
                         undeletable := undeletable w |}).

(** [os.path.exists(path)]. *)
Definition path_exists (path : string) : M bool :=
  fun w => (Py.Ok (bool_decide (is_Some (files w !! path))), w).

(** [os.unlink(path)]: removes the file; raises when there is none, and
    when the file is there but may not be removed. *)
Definition unlink (path : string) : M unit :=
  fun w =>
    match files w !! path with
    | Some _ =>
        if bool_decide (path ∈ undeletable w)
        then (Py.Raise (Py.PermissionError path), w)
        else (Py.Ok tt, {| files := delete path (files w);
                           trace := trace w ++ [Unlink path];
                           undeletable := undeletable w |})
    | None => (Py.Raise (Py.FileNotFoundError path), w)
    end.

(** [for fname in l: os.unlink(fname)]. *)
Fixpoint unlink_all (l : list string) : M unit :=
  match l with
  | [] => ret tt
  | fname :: l' => unlink fname ;; unlink_all l'
  end.

Definition index_suffixes : list string := ["1"; "2"; "3"; "4"; "rev.1"; "rev.2"].

(** [[prefix + '.' + x + '.bt2' for x in ['1', '2', '3', '4', 'rev.1', 'rev.2']]]. *)
Definition bt2_files (prefix : string) : list string :=
  map (fun x => prefix +:+ "." +:+ x +:+ ".bt2") index_suffixes.

(** The keyword arguments of [run_bowtie2]. *)
Record options : Type := {
  threads : Z;
  max_insert : Z;
  sort : bool;
  samtools : string;
  bowtie2 : string;
  bowtie2_preset : string;
  verbose : bool;
  remove_both_unmapped : bool;
  clean_index : bool
}.

Definition default_options : options :=
  {| threads := 1; max_insert := 1000; sort := false;
     samtools := "samtools"; bowtie2 := "bowtie2";
     bowtie2_preset := "very-sensitive-local"; verbose := false;
     remove_both_unmapped := false; clean_index := true |}.

(** The command of [bowtie2_index]. *)
Definition build_cmd (ref_fa outprefix bowtie2 : string) : string :=
  Py.join " " [bowtie2 +:+ "-build"; "-q"; ref_fa; outprefix].

(** The paths and commands [run_bowtie2] computes. *)
Definition map_index (out_prefix : string) : string := out_prefix +:+ ".map_index".

Definition initial_clean_files (out_prefix : string) (o : options) : list string :=
  if clean_index o then bt2_files (map_index out_prefix) else [].

Definition final_bam (out_prefix : string) : string := out_prefix +:+ ".bam".

Definition intermediate_bam (out_prefix : string) (o : options) : string :=
  if sort o then out_prefix +:+ ".unsorted.bam" else final_bam out_prefix.

Definition map_cmd (reads_fwd reads_rev ref_fa out_prefix : string) (o : options) : string :=
  let map_cmd :=
    [ bowtie2 o;
      "--threads"; Py.str (threads o);
      "--reorder";
      "--" +:+ bowtie2_preset o;
      "-X"; Py.str (max_insert o);
      "-x"; map_index out_prefix;
      "-1"; reads_fwd;
      "-2"; reads_rev ] in
  let map_cmd :=
    if remove_both_unmapped o then map_cmd ++ [remove_both_unmapped_stage]
    else map_cmd in
  let map_cmd :=
    map_cmd ++ [ "|"; samtools o; "view";
                 "-bS -T"; ref_fa;
                 "- >"; intermediate_bam out_prefix o ] in
  Py.join " " map_cmd.

Definition sort_cmd (out_prefix : string) (o : options) (threads thread_mem : Z) : string :=
  Py.join " " [ samtools o;
                "sort";
                "-@" +:+ Py.str threads;
                "-m" +:+ Py.str thread_mem +:+ "M";
                "-o"; final_bam out_prefix;
                "-O bam";
                "-T"; out_prefix +:+ ".tmp.samtool_sort";
                intermediate_bam out_prefix o ].

Definition index_cmd (out_prefix : string) (o : options) : string :=
  samtools o +:+ " index " +:+ final_bam out_prefix.

Section Tools.

(** What running a shell command does: whether it exits with status zero,
    and the files it leaves behind.  Nothing is assumed about it. *)
Variable exec : string -> gmap string string -> bool * gmap string string.

(** Modelled from the spec: [common.syscall] is not under src/.  In verbose
    mode the composed command line is echoed before execution; the command
    is run once; a non-zero exit is fatal and propagates. *)
Definition syscall (cmd : string) (verbose : bool) : M unit :=
  (if verbose then emit (Echo cmd) else ret tt) ;;
  fun w =>
    let '(ok, fs) := exec cmd (files w) in
    let w' := {| files := fs; trace := trace w ++ [Exec cmd];
                 undeletable := undeletable w |} in
    (if ok then Py.Ok tt else Py.Raise (Py.SystemExit cmd), w').

(** The loop of [bowtie2_index] that looks for a missing file and breaks at
    the first one. *)
Fixpoint file_missing (expected_files : list string) : M bool :=
  match expected_files with
  | [] => ret false
  | filename :: rest =>
      e <- path_exists filename ;;
      if negb e then ret true else file_missing rest
  end.

Definition bowtie2_index (ref_fa outprefix bowtie2 : string) (verbose : bool) : M unit :=
  let expected_files := bt2_files outprefix in
  missing <- file_missing expected_files ;;
  if negb missing then ret tt
  else
    let cmd := build_cmd ref_fa outprefix bowtie2 in
    syscall cmd verbose.

(** The [if sort:] block; it returns the list of files to clean. *)
Definition sort_block (out_prefix : string) (o : options) (clean_files : list string)
    : M (list string) :=
  if sort o then
    let threads := Z.min 4 (threads o) in
    match Py.int_truediv 500 threads with
    | None => raise Py.ZeroDivisionError
    | Some thread_mem =>
        syscall (sort_cmd out_prefix o threads thread_mem) (verbose o) ;;
        syscall (index_cmd out_prefix o) (verbose o) ;;
        ret (clean_files ++ [intermediate_bam out_prefix o])
    end
  else ret clean_files.

Definition run_bowtie2 (reads_fwd reads_rev ref_fa out_prefix : string) (o : options)
    : M unit :=
  let clean_files := initial_clean_files out_prefix o in
  bowtie2_index ref_fa (map_index out_prefix) (bowtie2 o) (verbose o) ;;
  syscall (map_cmd reads_fwd reads_rev ref_fa out_prefix o) (verbose o) ;;
  clean_files <- sort_block out_prefix o clean_files ;;
  unlink_all clean_files.

End Tools.

(** The external invocations in a trace, in order. *)
Definition invocations (tr : list event) : list string :=
  omap (fun e => match e with Exec cmd => Some cmd | _ => None end) tr.

(** The files removed in a trace, in order. *)
Definition unlinked (tr : list event) : list string :=
  omap (fun e => match e with Unlink p => Some p | _ => None end) tr.

(** A test double for the external tools: every invocation succeeds and
    leaves the given files in place (creating the ones that are missing). *)
Definition touch (fs : gmap string string) (path : string) : gmap string string :=
  match fs !! path with
  | Some _ => fs
  | None => <[path := ""]> fs
  end.

Definition fake_tools (outputs : list string)
    (cmd : string) (fs : gmap string string) : bool * gmap string string :=
  (true, fold_left touch outputs fs).

(* ===================================================================== *)
(** * Vocabulary of the specifications                                    *)
(* ===================================================================== *)

(** Watson-Crick complement of a base, in either case; any other character
    stands for itself. *)
Definition complement (c : ascii) : ascii :=
  match c with
  | "A" => "T" | "T" => "A" | "C" => "G" | "G" => "C"
  | "a" => "t" | "t" => "a" | "c" => "g" | "g" => "c"
  | _ => c
  end%char.

(** [scores bam vs]: the records of [bam] that carry an integer [AS] tag
    carry, in file order, the values [vs]; the other records of [bam] have
    no [AS] tag. *)
Inductive scores : list AlignedSegment -> list Z -> Prop :=
  | scores_nil : scores [] []
  | scores_tagged sam v bam vs :
      opt sam "AS" = Some (TagInt v) -> scores bam vs -> scores (sam :: bam) (v :: vs)
  | scores_untagged sam bam vs :
      opt sam "AS" = None -> scores bam vs -> scores (sam :: bam) vs.

(** [v1 + ... + vM]. *)
Definition sum (vs : list Z) : Z := foldr Z.add 0 vs.

(** What [common.syscall] prints before it runs a command. *)
Definition echo (verbose : bool) (cmd : string) : list event :=
  if verbose then [Echo cmd] else [].

(** Whether some file of the list is absent. *)
Definition any_absent (fs : gmap string string) (l : list string) : bool :=
  existsb (fun f => negb (bool_decide (is_Some (fs !! f)))) l.

(** The files left after removing the files of a list. *)
Definition delete_all (l : list string) (fs : gmap string string) : gmap string string :=
  fold_left (fun fs f => delete f fs) l fs.

(** The files left by a sequence of invocations. *)
Definition run_cmds (exec : string -> gmap string string -> bool * gmap string string)
    (cmds : list string) (fs : gmap string string) : gmap string string :=
  fold_left (fun fs cmd => (exec cmd fs).2) cmds fs.

(** The invocations a run makes when no tool fails: the index build when an
    index file is missing, the mapping pipeline, and with [sort] the sort
    and the indexing of the final file. *)
Definition planned (reads_fwd reads_rev ref_fa out_prefix : string) (o : options)
    (fs : gmap string string) : list string :=
  (if any_absent fs (bt2_files (map_index out_prefix))
   then [build_cmd ref_fa (map_index out_prefix) (bowtie2 o)] else []) ++
  [map_cmd reads_fwd reads_rev ref_fa out_prefix o] ++
  (if sort o then
     match Py.int_truediv 500 (Z.min 4 (threads o)) with
     | Some thread_mem =>
         [sort_cmd out_prefix o (Z.min 4 (threads o)) thread_mem;
          index_cmd out_prefix o]
     | None => []
     end
   else []).

(** The files queued for deletion at the end of a run. *)
Definition cleaned (out_prefix : string) (o : options) : list string :=
  initial_clean_files out_prefix o ++
  (if sort o then [intermediate_bam out_prefix o] else []).

(** Whether a result is the failure of an external invocation. *)
Definition tool_failed {A} (r : Py.result A) : bool :=
  match r with
  | Py.Raise (Py.SystemExit _) => true
  | _ => false
  end.

(** Every invocation of the sequence exits with status zero. *)
Fixpoint succeed (exec : string -> gmap string string -> bool * gmap string string)
    (cmds : list string) (fs : gmap string string) : Prop :=
  match cmds with
  | [] => True
  | cmd :: rest => (exec cmd fs).1 = true /\ succeed exec rest (exec cmd fs).2
  end.

(** The invocations of the [if sort:] block. *)
Definition sort_plan (out_prefix : string) (o : options) : list string :=
  if sort o then
    match Py.int_truediv 500 (Z.min 4 (threads o)) with
    | Some thread_mem =>
        [sort_cmd out_prefix o (Z.min 4 (threads o)) thread_mem;
         index_cmd out_prefix o]
    | None => []
    end
  else [].

(** The record the aligner stores for the same read placed on the other
    strand: the strand bit is flipped, the bases are reverse-complemented and
    the quality string is reversed. *)
Definition other_strand (sam : AlignedSegment) : AlignedSegment :=
  {| qname := qname sam;
     flag := Z.lxor (flag sam) FREVERSE;
     seq := Text (Py.reversed (Py.translate revcomp_table (decode (seq sam))));
     qual := Text (Py.reversed (decode (qual sam)));
     tags := tags sam |}.

(** The flag bits [sam_to_fastq] looks at: reverse strand, first and second
    of pair. *)
Definition converter_bits : Z := 16 + 64 + 128.

Section Vocabulary.

Variable exec : string -> gmap string string -> bool * gmap string string.

(** [invoked w w' cmds]: from [w] to [w'] the commands [cmds] were invoked,
    in order, and nothing was unlinked. *)
Definition invoked (w w' : world) (cmds : list string) : Prop :=
  exists evs,
    trace w' = trace w ++ evs /\
    invocations evs = cmds /\
    unlinked evs = [] /\
    files w' = run_cmds exec cmds (files w).

(** [stage m w plan]: run from [w], [m] invokes a prefix of [plan] and
    unlinks nothing; it invokes all of [plan] unless a tool fails, and when
    it returns normally every invocation has succeeded. *)
Definition stage {A} (m : M A) (w : world) (plan : list string) : Prop :=
  exists cmds,
    cmds `prefix_of` plan /\
    invoked w (m w).2 cmds /\
    (tool_failed (m w).1 = false -> cmds = plan) /\
    (forall a, (m w).1 = Py.Ok a -> succeed exec cmds (files w)).

(** The part of [run_bowtie2] before the final clean-up loop. *)
Definition tools_phase (reads_fwd reads_rev ref_fa out_prefix : string) (o : options)
    : M (list string) :=
  bowtie2_index exec ref_fa (map_index out_prefix) (bowtie2 o) (verbose o) ;;
  syscall exec (map_cmd reads_fwd reads_rev ref_fa out_prefix o) (verbose o) ;;
  sort_block exec out_prefix o (initial_clean_files out_prefix o).

(** [fails m w plan]: when [m] raises from [w], either it is the failure of
    a command [c] of [plan], reached after the commands before it succeeded,
    and nothing after [c] was invoked; or it is a division by zero, raised
    after all of [plan] was invoked with success. *)
Definition fails {A} (m : M A) (w : world) (plan : list string) : Prop :=
  forall e, (m w).1 = Py.Raise e ->
    (e = Py.ZeroDivisionError /\
     invoked w (m w).2 plan /\ succeed exec plan (files w)) \/
    (exists pre c post,
       e = Py.SystemExit c /\
       plan = pre ++ c :: post /\
       succeed exec pre (files w) /\
       (exec c (run_cmds exec pre (files w))).1 = false /\
       invoked w (m w).2 (pre ++ [c])).

(** [completes m w plan]: [m] returns normally from [w] when every command
    of [plan] succeeds. *)
Definition completes {A} (m : M A) (w : world) (plan : list string) : Prop :=
  succeed exec plan (files w) -> exists a, (m w).1 = Py.Ok a.

End Vocabulary.

(* ===================================================================== *)
(** * Example data                                                        *)
(* ===================================================================== *)

(** A first-of-pair record aligned to the reverse strand. *)
Definition readA_reverse : AlignedSegment :=
  {| qname := "readA"; flag := 64 + 16;
     seq := Text "ACGG"; qual := Text "IJKL"; tags := [] |}.

(** A record flagged both first and second of pair. *)
Definition read_both_roles : AlignedSegment :=
  {| qname := "readB"; flag := 64 + 128;
     seq := Text "ACGT"; qual := Text "IIII"; tags := [] |}.

(** Records with and without the [AS] tag, and a file of five records. *)
Definition scored (name : string) (v : Z) : AlignedSegment :=
  {| qname := name; flag := 0; seq := Text "A"; qual := Text "I";
     tags := [("NM", TagInt 0); ("AS", TagInt v)] |}.

Definition unscored (name : string) : AlignedSegment :=
  {| qname := name; flag := 4; seq := Text "A"; qual := Text "I";
     tags := [("YT", TagStr "UP")] |}.

Definition small_bam : list AlignedSegment :=
  [unscored "r1"; scored "r2" 7; unscored "r3"; scored "r4" (-2); scored "r5" 30].

(** The same read as [readA_reverse], flagged unmapped and duplicate and
    carrying a score tag. *)
Definition readA_duplicate : AlignedSegment :=
  {| qname := "readA"; flag := 64 + 16 + 1024 + 4;
     seq := Text "ACGG"; qual := Text "IJKL";
     tags := [("AS", TagInt 12)] |}.

(** A record whose [AS] tag holds a string. *)
Definition string_scored (name s : string) : AlignedSegment :=
  {| qname := name; flag := 0; seq := Text "A"; qual := Text "I";
     tags := [("AS", TagStr s)] |}.

(** Tools that fail at every invocation and wipe the disk. *)
Definition broken_tools (cmd : string) (fs : gmap string string)
    : bool * gmap string string :=
  (false, ∅).

(** The files a run on prefix [out] can produce. *)
Definition out_files : list string :=
  bt2_files (map_index "out") ++ ["out.unsorted.bam"; "out.bam"; "out.bam.bai"].

Definition empty_world : world := {| files := ∅; trace := []; undeletable := ∅ |}.

(** A world whose index files for prefix [ref] exist with stale contents. *)
Definition stale_index_world : world :=
  {| files := list_to_map (map (fun f => (f, "stale")) (bt2_files "ref"));
     trace := [Echo "earlier"];
     undeletable := ∅ |}.

Definition sorting_options : options :=
  {| threads := 3; max_insert := 1000; sort := true;
     samtools := "samtools"; bowtie2 := "bowtie2";
     bowtie2_preset := "very-sensitive-local"; verbose := false;
     remove_both_unmapped := true; clean_index := true |}.

Definition keeping_options : options :=
  {| threads := 1; max_insert := 1000; sort := false;
     samtools := "samtools"; bowtie2 := "bowtie2";
     bowtie2_preset := "very-sensitive-local"; verbose := false;
     remove_both_unmapped := false; clean_index := false |}.

(** A world in which the index of prefix [out] is already built. *)
Definition indexed_world : world :=
  {| files := list_to_map (map (fun f => (f, "index")) (bt2_files (map_index "out")));
     trace := [];
     undeletable := ∅ |}.

(** Options that ask for sorting with no thread at all. *)
Definition zero_thread_options : options :=
  {| threads := 0; max_insert := 1000; sort := true;
     samtools := "samtools"; bowtie2 := "bowtie2";
     bowtie2_preset := "very-sensitive-local"; verbose := false;
     remove_both_unmapped := false; clean_index := true |}.


(* ===================================================================== *)
(** * Flag bits                                                           *)
(* ===================================================================== *)

Section FlagBits.

Lemma land_pow2_eqb (f n : Z) :
  0 <= n -> (Z.land f (2 ^ n) =? 0) = negb (Z.testbit f n).
Proof.
  intros Hn. destruct (Z.testbit f n) eqn:Hb; simpl.
  - apply Z.eqb_neq. intros H0.
    assert (Hbit : Z.testbit (Z.land f (2 ^ n)) n = true).
    { rewrite Z.land_spec, Hb, Z.pow2_bits_true by lia. reflexivity. }
    rewrite H0, Z.bits_0 in Hbit. discriminate.
  - apply Z.eqb_eq. apply Z.bits_inj'. intros m Hm.
    rewrite Z.land_spec, Z.bits_0, Z.pow2_bits_eqb by lia.
    destruct (Z.eqb_spec n m) as [->|]; [rewrite Hb; reflexivity | apply andb_false_r].
Qed.

Lemma flag_has_testbit (f n : Z) :
  0 <= n -> flag_has f (2 ^ n) = Z.testbit f n.
Proof.
  intros Hn. unfold flag_has. rewrite land_pow2_eqb by lia. apply negb_involutive.
Qed.

Lemma is_read1_testbit sam : is_read1 sam = Z.testbit (flag sam) 6.
Proof. apply (flag_has_testbit (flag sam) 6). lia. Qed.

Lemma is_read2_testbit sam : is_read2 sam = Z.testbit (flag sam) 7.
Proof. apply (flag_has_testbit (flag sam) 7). lia. Qed.

Lemma is_reverse_testbit sam : is_reverse sam = Z.testbit (flag sam) 4.
Proof. apply (flag_has_testbit (flag sam) 4). lia. Qed.

End FlagBits.

(* ===================================================================== *)
(** * The unmapped-pair filter                                            *)
(* ===================================================================== *)

Lemma filter_keeps_unfold (f : Z) :
  filter_keeps f = (Z.land f 4 =? 0) || (Z.land f 8 =? 0).
Proof.
  unfold filter_keeps, Awk.prints, both_unmapped_pattern. simpl.
  destruct (Z.land f 4 =? 0), (Z.land f 8 =? 0); reflexivity.
Qed.

(** C1. The filter stage that [run_bowtie2] inserts is the awk program
    [!(and($2,4)) || !(and($2,8))]; on a record with flag [f] it keeps the
    record exactly when bit 2 (value 4, read unmapped) or bit 3 (value 8,
    mate unmapped) of [f] is clear.  Hence both bits set gives false and
    exactly one bit set gives true. *)
Theorem filter_keeps_iff_some_unmapped_bit_clear (f : Z) :
  remove_both_unmapped_stage = " | awk ' !(and($2,4)) || !(and($2,8)) ' " /\
  filter_keeps f = negb (Z.testbit f 2 && Z.testbit f 3) /\
  (filter_keeps f = true <-> Z.testbit f 2 = false \/ Z.testbit f 3 = false) /\
  (filter_keeps f = false <-> Z.testbit f 2 = true /\ Z.testbit f 3 = true) /\
  (xorb (Z.testbit f 2) (Z.testbit f 3) = true -> filter_keeps f = true).
Proof.
  assert (E : filter_keeps f = negb (Z.testbit f 2 && Z.testbit f 3)).
  { rewrite filter_keeps_unfold.
    pose proof (land_pow2_eqb f 2 ltac:(lia)) as H4.
    pose proof (land_pow2_eqb f 3 ltac:(lia)) as H8.
    change (2 ^ 2) with 4 in H4. change (2 ^ 3) with 8 in H8. rewrite H4, H8.
    destruct (Z.testbit f 2), (Z.testbit f 3); reflexivity. }
  split; [reflexivity|]. split; [exact E|]. rewrite E.
  destruct (Z.testbit f 2), (Z.testbit f 3); simpl; intuition congruence.
Qed.

(** The stage is part of the pipeline exactly when it is asked for. *)
Lemma map_cmd_filter_stage reads_fwd reads_rev ref_fa out_prefix o :
  map_cmd reads_fwd reads_rev ref_fa out_prefix o =
  Py.join " "
    ([ bowtie2 o; "--threads"; Py.str (threads o); "--reorder";
       "--" +:+ bowtie2_preset o; "-X"; Py.str (max_insert o);
       "-x"; map_index out_prefix; "-1"; reads_fwd; "-2"; reads_rev ]
     ++ (if remove_both_unmapped o then [remove_both_unmapped_stage] else [])
     ++ [ "|"; samtools o; "view"; "-bS -T"; ref_fa; "- >";
          intermediate_bam out_prefix o ]).
Proof. unfold map_cmd. destruct (remove_both_unmapped o); reflexivity. Qed.

(* ===================================================================== *)
(** * sam_to_fastq                                                        *)
(* ===================================================================== *)

Lemma sam_to_fastq_read1 sam :
  is_read1 sam = true ->
  sam_to_fastq sam =
  Py.Ok (let fq := {| fq_id := qname sam +:+ "/1";
                      fq_seq := decode (seq sam);
                      fq_qual := decode (qual sam) |} in
         if is_reverse sam then revcomp fq else fq).
Proof. intros H. unfold sam_to_fastq. rewrite H. reflexivity. Qed.

Lemma sam_to_fastq_read2 sam :
  is_read1 sam = false -> is_read2 sam = true ->
  sam_to_fastq sam =
  Py.Ok (let fq := {| fq_id := qname sam +:+ "/2";
                      fq_seq := decode (seq sam);
                      fq_qual := decode (qual sam) |} in
         if is_reverse sam then revcomp fq else fq).
Proof. intros H1 H2. unfold sam_to_fastq. rewrite H1, H2. reflexivity. Qed.

Lemma sam_to_fastq_unpaired sam :
  is_read1 sam = false -> is_read2 sam = false ->
  sam_to_fastq sam = Py.Raise (pairing_error (qname sam)).
Proof. intros H1 H2. unfold sam_to_fastq. rewrite H1, H2. reflexivity. Qed.

(** C2. [sam_to_fastq] raises exactly when neither pairing-role bit (64,
    first of pair; 128, second of pair) is set; the exception is the
    module's [Error] and its message contains the read name.  With at least
    one of the two bits set a sequence record is returned. *)
Theorem sam_to_fastq_raises_iff_unpaired (sam : AlignedSegment) :
  ((exists e, sam_to_fastq sam = Py.Raise e) <->
     Z.testbit (flag sam) 6 = false /\ Z.testbit (flag sam) 7 = false) /\
  (forall e, sam_to_fastq sam = Py.Raise e ->
     e = Py.Error ("Read " +:+ qname sam +:+
           " must be first or second of pair according to flag. Cannot continue")) /\
  ((exists fq, sam_to_fastq sam = Py.Ok fq) <->
     Z.testbit (flag sam) 6 = true \/ Z.testbit (flag sam) 7 = true).
Proof.
  rewrite <- is_read1_testbit, <- is_read2_testbit.
  destruct (is_read1 sam) eqn:H1; [|destruct (is_read2 sam) eqn:H2].
  - rewrite (sam_to_fastq_read1 sam H1).
    split; [|split].
    + split; [intros [e He]; discriminate | intros [? _]; discriminate].
    + intros e He. discriminate.
    + split; [auto | eauto].
  - rewrite (sam_to_fastq_read2 sam H1 H2).
    split; [|split].
    + split; [intros [e He]; discriminate | intros [_ ?]; discriminate].
    + intros e He. discriminate.
    + split; [auto | eauto].
  - rewrite (sam_to_fastq_unpaired sam H1 H2).
    split; [|split].
    + split; [auto | eauto].
    + intros e He. inversion He. reflexivity.
    + split; [intros [fq Hfq]; discriminate | intros [?|?]; discriminate].
Qed.

(** ** The sequence record *)

Lemma translate_char_revcomp_table (c : ascii) :
  Py.translate_char revcomp_table c = complement c.
Proof.
  destruct c as [b0 b1 b2 b3 b4 b5 b6 b7].
  destruct b0, b1, b2, b3, b4, b5, b6, b7; reflexivity.
Qed.

Lemma chars_translate tbl (s : string) :
  list_ascii_of_string (Py.translate tbl s) =
  map (Py.translate_char tbl) (list_ascii_of_string s).
Proof. induction s as [|c s IH]; simpl; [reflexivity | now rewrite IH]. Qed.

Lemma chars_reversed (s : string) :
  list_ascii_of_string (Py.reversed s) = reverse (list_ascii_of_string s).
Proof. unfold Py.reversed. apply list_ascii_of_string_of_list_ascii. Qed.

Lemma chars_revcomp_seq (fq : Fastq) :
  list_ascii_of_string (fq_seq (revcomp fq)) =
  reverse (map complement (list_ascii_of_string (fq_seq fq))).
Proof.
  simpl. rewrite chars_reversed, chars_translate. f_equal.
  apply map_ext. intros c. apply translate_char_revcomp_table.
Qed.

Lemma chars_revcomp_qual (fq : Fastq) :
  list_ascii_of_string (fq_qual (revcomp fq)) =
  reverse (list_ascii_of_string (fq_qual fq)).
Proof. simpl. apply chars_reversed. Qed.

(** Position by position: base [i] of the result is the complement of base
    [n - 1 - i] of the input. *)
Lemma revcomp_seq_lookup (fq : Fastq) (i : nat) :
  (i < length (list_ascii_of_string (fq_seq fq)))%nat ->
  list_ascii_of_string (fq_seq (revcomp fq)) !! i =
  complement <$>
    list_ascii_of_string (fq_seq fq)
      !! (length (list_ascii_of_string (fq_seq fq)) - S i)%nat.
Proof.
  intros Hi. rewrite chars_revcomp_seq.
  rewrite reverse_lookup by (rewrite length_map; exact Hi).
  rewrite length_map. apply list_lookup_fmap.
Qed.

Lemma revcomp_id (fq : Fastq) : fq_id (revcomp fq) = fq_id fq.
Proof. reflexivity. Qed.

(** C3. For an accepted record the name is the read name followed by [/1]
    for a first-of-pair record and by [/2] otherwise, in which case the
    record is second of pair.  On the forward strand bases and quality are
    the stored ones; on the reverse strand the bases are complemented and
    reversed and the quality is reversed only. *)
Theorem sam_to_fastq_record (sam : AlignedSegment) (fq : Fastq) :
  sam_to_fastq sam = Py.Ok fq ->
  fq_id fq = qname sam +:+ (if is_read1 sam then "/1" else "/2") /\
  (is_read1 sam = false -> is_read2 sam = true) /\
  (is_reverse sam = false ->
     fq_seq fq = decode (seq sam) /\ fq_qual fq = decode (qual sam)) /\
  (is_reverse sam = true ->
     list_ascii_of_string (fq_seq fq) =
       reverse (map complement (list_ascii_of_string (decode (seq sam)))) /\
     list_ascii_of_string (fq_qual fq) =
       reverse (list_ascii_of_string (decode (qual sam)))).
Proof.
  intros H.
  destruct (is_read1 sam) eqn:H1; [|destruct (is_read2 sam) eqn:H2].
  - rewrite (sam_to_fastq_read1 sam H1) in H. injection H as <-.
    destruct (is_reverse sam); cbv zeta.
    + rewrite revcomp_id, chars_revcomp_seq, chars_revcomp_qual. simpl.
      repeat split; congruence.
    + simpl. repeat split; congruence.
  - rewrite (sam_to_fastq_read2 sam H1 H2) in H. injection H as <-.
    destruct (is_reverse sam); cbv zeta.
    + rewrite revcomp_id, chars_revcomp_seq, chars_revcomp_qual. simpl.
      repeat split; congruence.
    + simpl. repeat split; congruence.
  - rewrite (sam_to_fastq_unpaired sam H1 H2) in H. discriminate.
Qed.

Lemma sam_to_fastq_record_witness :
  sam_to_fastq readA_reverse =
    Py.Ok {| fq_id := "readA/1"; fq_seq := "CCGT"; fq_qual := "LKJI" |} /\
  list_ascii_of_string "CCGT" =
    reverse (map complement (list_ascii_of_string "ACGG")).
Proof.
  split; [reflexivity|].
  apply (sam_to_fastq_record readA_reverse
           {| fq_id := "readA/1"; fq_seq := "CCGT"; fq_qual := "LKJI" |});
    reflexivity.
Defined.

(** C10. A record flagged both first and second of pair is converted as a
    first-of-pair record: no error, and the name ends in [/1]. *)
Theorem sam_to_fastq_read1_precedence (sam : AlignedSegment) :
  is_read1 sam = true -> is_read2 sam = true ->
  exists fq, sam_to_fastq sam = Py.Ok fq /\ fq_id fq = qname sam +:+ "/1".
Proof.
  intros H1 _. rewrite (sam_to_fastq_read1 sam H1).
  eexists. split; [reflexivity|].
  destruct (is_reverse sam); reflexivity.
Qed.

Lemma sam_to_fastq_read1_precedence_witness :
  is_read1 read_both_roles = true /\ is_read2 read_both_roles = true /\
  exists fq, sam_to_fastq read_both_roles = Py.Ok fq /\ fq_id fq = "readB/1".
Proof.
  split; [reflexivity|]. split; [reflexivity|].
  apply (sam_to_fastq_read1_precedence read_both_roles); reflexivity.
Defined.

(* ===================================================================== *)
(** * get_total_alignment_score                                           *)
(* ===================================================================== *)

Lemma fold_add_score_from (bam : list AlignedSegment) (total : Z) :
  fold_left add_score bam total = total + fold_left add_score bam 0.
Proof.
  revert total. induction bam as [|sam bam IH]; intros total; simpl.
  - lia.
  - rewrite (IH (add_score total sam)), (IH (add_score 0 sam)).
    unfold add_score. destruct (opt sam "AS") as [[v|s]|]; lia.
Qed.

Lemma total_cons (sam : AlignedSegment) (bam : list AlignedSegment) :
  get_total_alignment_score (sam :: bam) =
  add_score 0 sam + get_total_alignment_score bam.
Proof. unfold get_total_alignment_score. simpl. apply fold_add_score_from. Qed.

(** C4. When [M] records carry the score tag with integer values [vs] and
    the others lack it, the total is the sum of [vs], whatever the number
    and position of the untagged records; in particular it is 0 when no
    record is tagged, and for the empty file. *)
Theorem get_total_alignment_score_sum (bam : list AlignedSegment) (vs : list Z) :
  scores bam vs ->
  get_total_alignment_score bam = sum vs /\
  (vs = [] -> get_total_alignment_score bam = 0) /\
  get_total_alignment_score [] = 0.
Proof.
  intros H.
  assert (E : get_total_alignment_score bam = sum vs).
  { induction H as [|sam v bam vs Hsam _ IH|sam bam vs Hsam _ IH].
    - reflexivity.
    - rewrite total_cons, IH. unfold add_score. rewrite Hsam. reflexivity.
    - rewrite total_cons, IH. unfold add_score. rewrite Hsam. reflexivity. }
  split; [exact E|]. split; [|reflexivity].
  intros ->. exact E.
Qed.

Lemma get_total_alignment_score_sum_witness :
  scores small_bam [7; -2; 30] /\ get_total_alignment_score small_bam = 35.
Proof.
  assert (H : scores small_bam [7; -2; 30]).
  { unfold small_bam.
    apply scores_untagged; [reflexivity|].
    apply scores_tagged; [reflexivity|].
    apply scores_untagged; [reflexivity|].
    apply scores_tagged; [reflexivity|].
    apply scores_tagged; [reflexivity|].
    apply scores_nil. }
  split; [exact H|].
  exact (proj1 (get_total_alignment_score_sum small_bam [7; -2; 30] H)).
Defined.

(* ===================================================================== *)
(** * Strings and paths                                                   *)
(* ===================================================================== *)

Lemma append_assoc (a b c : string) : (a +:+ b) +:+ c = a +:+ (b +:+ c).
Proof.
  induction a as [|x a IH]; [reflexivity|].
  change (String x ((a +:+ b) +:+ c) = String x (a +:+ (b +:+ c))).
  f_equal. exact IH.
Qed.

Lemma append_same_prefix_ne (p a b : string) : a <> b -> p +:+ a <> p +:+ b.
Proof. intros Hne Heq. apply Hne. exact (String.app_inj p a b Heq). Qed.

(** The six index files, written out. *)
Lemma bt2_files_eq (prefix : string) :
  bt2_files prefix =
  [ prefix +:+ ".1.bt2"; prefix +:+ ".2.bt2"; prefix +:+ ".3.bt2";
    prefix +:+ ".4.bt2"; prefix +:+ ".rev.1.bt2"; prefix +:+ ".rev.2.bt2" ].
Proof. reflexivity. Qed.

Lemma bt2_files_map_index (out_prefix : string) :
  bt2_files (map_index out_prefix) =
  map (fun sfx => out_prefix +:+ sfx)
    [ ".map_index.1.bt2"; ".map_index.2.bt2"; ".map_index.3.bt2";
      ".map_index.4.bt2"; ".map_index.rev.1.bt2"; ".map_index.rev.2.bt2" ].
Proof.
  unfold bt2_files, map_index, index_suffixes. cbn [map].
  rewrite !append_assoc. reflexivity.
Qed.

(** No index file is a [.bam] file of the run. *)
Lemma bt2_file_not_unsorted (out_prefix f : string) :
  f ∈ bt2_files (map_index out_prefix) -> f <> out_prefix +:+ ".unsorted.bam".
Proof.
  rewrite bt2_files_map_index. intros Hf.
  apply list_elem_of_fmap in Hf as (sfx & -> & Hsfx).
  apply append_same_prefix_ne.
  repeat (apply elem_of_cons in Hsfx as [-> | Hsfx]; [discriminate|]).
  inversion Hsfx.
Qed.

Lemma final_not_unsorted (out_prefix : string) :
  final_bam out_prefix <> out_prefix +:+ ".unsorted.bam".
Proof. unfold final_bam. apply append_same_prefix_ne. discriminate. Qed.

(* ===================================================================== *)
(** * Traces                                                              *)
(* ===================================================================== *)

Lemma invocations_app (a b : list event) :
  invocations (a ++ b) = invocations a ++ invocations b.
Proof. apply omap_app. Qed.

Lemma invocations_echo v cmd : invocations (echo v cmd) = [].
Proof. destruct v; reflexivity. Qed.

Lemma invocations_unlinks (l : list string) : invocations (map Unlink l) = [].
Proof. induction l; [reflexivity | assumption]. Qed.

Lemma unlinked_app (a b : list event) :
  unlinked (a ++ b) = unlinked a ++ unlinked b.
Proof. apply omap_app. Qed.

Lemma unlinked_echo v cmd : unlinked (echo v cmd) = [].
Proof. destruct v; reflexivity. Qed.

Lemma unlinked_unlinks (l : list string) : unlinked (map Unlink l) = l.
Proof. induction l as [|f l IH]; [reflexivity | simpl; now rewrite IH]. Qed.

(* ===================================================================== *)
(** * File-system steps                                                   *)
(* ===================================================================== *)

Lemma any_absent_false (fs : gmap string string) (l : list string) :
  any_absent fs l = false <-> forall f, f ∈ l -> is_Some (fs !! f).
Proof.
  induction l as [|g l IH]; simpl.
  - split; [intros _ f Hf; inversion Hf | reflexivity].
  - rewrite orb_false_iff, IH, negb_false_iff, bool_decide_eq_true. split.
    + intros [Hg Hl] f Hf. apply elem_of_cons in Hf as [-> | Hf]; auto.
    + intros H. split; [apply H; left | intros f Hf; apply H; right; exact Hf].
Qed.

Lemma any_absent_true (fs : gmap string string) (l : list string) :
  any_absent fs l = true <-> exists f, f ∈ l /\ fs !! f = None.
Proof.
  split.
  - intros H. destruct (decide (Forall (fun f => is_Some (fs !! f)) l)) as [Hall|Hn].
    + rewrite Forall_forall in Hall.
      apply any_absent_false in Hall. congruence.
    + apply not_Forall_Exists in Hn; [|intros f; apply _].
      apply Exists_exists in Hn as (f & Hf & Hnone).
      exists f. split; [exact Hf|]. apply eq_None_not_Some. exact Hnone.
  - intros (f & Hf & Hnone). destruct (any_absent fs l) eqn:E; [reflexivity|].
    rewrite any_absent_false in E. specialize (E f Hf).
    rewrite Hnone in E. destruct E as [? E]. discriminate.
Qed.

Lemma file_missing_eq (l : list string) (w : world) :
  file_missing l w = (Py.Ok (any_absent (files w) l), w).
Proof.
  induction l as [|f l IH]; [reflexivity|].
  simpl. unfold bind, path_exists.
  destruct (bool_decide (is_Some (files w !! f))); simpl; [exact IH | reflexivity].
Qed.

Lemma delete_all_lookup_notin (l : list string) (fs : gmap string string) (f : string) :
  f ∉ l -> delete_all l fs !! f = fs !! f.
Proof.
  revert fs. induction l as [|g l IH]; intros fs Hf; simpl; [reflexivity|].
  apply not_elem_of_cons in Hf as [Hne Hf].
  rewrite IH by exact Hf. apply lookup_delete_ne. congruence.
Qed.

Lemma delete_all_lookup_None (l : list string) (fs : gmap string string) (f : string) :
  fs !! f = None -> delete_all l fs !! f = None.
Proof.
  revert fs. induction l as [|g l IH]; intros fs Hf; simpl; [exact Hf|].
  apply IH. rewrite lookup_delete. case_decide; [reflexivity | exact Hf].
Qed.

Lemma delete_all_lookup_in (l : list string) (fs : gmap string string) (f : string) :
  f ∈ l -> delete_all l fs !! f = None.
Proof.
  revert fs. induction l as [|g l IH]; intros fs Hf; simpl; [inversion Hf|].
  destruct (decide (f = g)) as [->|Hne].
  - apply delete_all_lookup_None. apply lookup_delete_eq.
  - apply IH. apply elem_of_cons in Hf as [?|?]; [contradiction | assumption].
Qed.

(** [unlink_all] removes a prefix of the list, the whole list when it
    returns normally, and does nothing else. *)
Lemma unlink_all_spec (l : list string) (w : world) :
  exists done,
    done `prefix_of` l /\
    (unlink_all l w).2 =
      {| files := delete_all done (files w); trace := trace w ++ map Unlink done;
         undeletable := undeletable w |} /\
    (forall u, (unlink_all l w).1 = Py.Ok u -> done = l).
Proof.
  revert w. induction l as [|f l IH]; intros w.
  - exists []. simpl. rewrite app_nil_r. destruct w; auto.
  - simpl. unfold bind, unlink. destruct (files w !! f) as [c|] eqn:Hf.
    + destruct (bool_decide (f ∈ undeletable w)).
      * exists []. split; [apply prefix_nil|]. simpl. rewrite app_nil_r.
        split; [destruct w; reflexivity | intros u Hu; discriminate].
      * destruct (IH {| files := delete f (files w); trace := trace w ++ [Unlink f];
                        undeletable := undeletable w |})
          as (done & Hpre & Hw & Hok).
        exists (f :: done). split; [apply prefix_cons; exact Hpre|].
        split.
        -- rewrite Hw. simpl. rewrite <- app_assoc. reflexivity.
        -- intros u Hu. f_equal. exact (Hok u Hu).
    + exists []. split; [apply prefix_nil|]. simpl. rewrite app_nil_r.
      split; [destruct w; reflexivity | intros u Hu; discriminate].
Qed.

(* ===================================================================== *)
(** * External invocations                                                *)
(* ===================================================================== *)

Section RunFacts.

Variable exec : string -> gmap string string -> bool * gmap string string.

Lemma invoked_refl (w : world) : invoked exec w w [].
Proof. exists []. rewrite app_nil_r. auto. Qed.

Lemma invoked_trans (w1 w2 w3 : world) (c1 c2 : list string) :
  invoked exec w1 w2 c1 -> invoked exec w2 w3 c2 -> invoked exec w1 w3 (c1 ++ c2).
Proof.
  intros (e1 & T1 & I1 & U1 & F1) (e2 & T2 & I2 & U2 & F2).
  exists (e1 ++ e2). repeat split.
  - rewrite T2, T1, app_assoc. reflexivity.
  - rewrite invocations_app, I1, I2. reflexivity.
  - rewrite unlinked_app, U1, U2. reflexivity.
  - rewrite F2, F1. unfold run_cmds. rewrite fold_left_app. reflexivity.
Qed.

Lemma syscall_eq (cmd : string) (v : bool) (w : world) :
  syscall exec cmd v w =
  ((if (exec cmd (files w)).1 then Py.Ok tt else Py.Raise (Py.SystemExit cmd)),
   {| files := (exec cmd (files w)).2;
      trace := trace w ++ echo v cmd ++ [Exec cmd];
      undeletable := undeletable w |}).
Proof.
  unfold syscall, bind, emit, ret.
  destruct v; cbn [files trace echo]; destruct (exec cmd (files w)) as [ok fs];
    cbn [fst snd]; rewrite <- ?app_assoc; reflexivity.
Qed.

Lemma syscall_invoked (cmd : string) (v : bool) (w : world) :
  invoked exec w (syscall exec cmd v w).2 [cmd].
Proof.
  rewrite syscall_eq. exists (echo v cmd ++ [Exec cmd]). cbn [snd files trace].
  rewrite invocations_app, unlinked_app, invocations_echo, unlinked_echo.
  auto.
Qed.

Lemma bowtie2_index_eq (ref_fa outprefix bowtie2 : string) (v : bool) (w : world) :
  bowtie2_index exec ref_fa outprefix bowtie2 v w =
  if any_absent (files w) (bt2_files outprefix)
  then syscall exec (build_cmd ref_fa outprefix bowtie2) v w
  else (Py.Ok tt, w).
Proof.
  unfold bowtie2_index, bind. rewrite file_missing_eq.
  destruct (any_absent (files w) (bt2_files outprefix)); reflexivity.
Qed.

(** C6. When the six index files are there, whatever they contain,
    [bowtie2_index] returns at once: it invokes nothing, prints nothing and
    leaves every file as it was. *)
Theorem bowtie2_index_all_present_noop
    (ref_fa outprefix bowtie2 : string) (v : bool) (w : world) :
  (forall f, f ∈ bt2_files outprefix -> is_Some (files w !! f)) ->
  bowtie2_index exec ref_fa outprefix bowtie2 v w = (Py.Ok tt, w).
Proof.
  intros Hall. rewrite bowtie2_index_eq.
  apply any_absent_false in Hall. rewrite Hall. reflexivity.
Qed.

Lemma build_cmd_eq (ref_fa outprefix bowtie2 : string) :
  build_cmd ref_fa outprefix bowtie2 =
  bowtie2 +:+ "-build -q " +:+ ref_fa +:+ " " +:+ outprefix.
Proof.
  unfold build_cmd, Py.join. cbn [String.concat].
  rewrite append_assoc. reflexivity.
Qed.

(** C7. The expected index files are the six paths [outprefix.S.bt2] for
    [S] in 1, 2, 3, 4, rev.1, rev.2.  When one of them is missing the index
    builder is invoked exactly once, on the reference and the prefix, and
    nothing else is invoked; the result is that of the build. *)
Theorem bowtie2_index_missing_builds_once
    (ref_fa outprefix bowtie2 : string) (v : bool) (w : world) (f : string) :
  f ∈ bt2_files outprefix -> files w !! f = None ->
  bt2_files outprefix =
    [ outprefix +:+ ".1.bt2"; outprefix +:+ ".2.bt2"; outprefix +:+ ".3.bt2";
      outprefix +:+ ".4.bt2"; outprefix +:+ ".rev.1.bt2";
      outprefix +:+ ".rev.2.bt2" ] /\
  length (bt2_files outprefix) = 6%nat /\
  invoked exec w (bowtie2_index exec ref_fa outprefix bowtie2 v w).2
    [bowtie2 +:+ "-build -q " +:+ ref_fa +:+ " " +:+ outprefix] /\
  (bowtie2_index exec ref_fa outprefix bowtie2 v w).1 =
    if (exec (build_cmd ref_fa outprefix bowtie2) (files w)).1
    then Py.Ok tt else Py.Raise (Py.SystemExit (build_cmd ref_fa outprefix bowtie2)).
Proof.
  intros Hf Hnone.
  split; [apply bt2_files_eq|]. split; [reflexivity|].
  rewrite bowtie2_index_eq.
  assert (Hab : any_absent (files w) (bt2_files outprefix) = true).
  { apply any_absent_true. exists f. auto. }
  rewrite Hab, <- build_cmd_eq. split; [apply syscall_invoked|].
  rewrite syscall_eq. reflexivity.
Qed.

(** ** Stages of a run *)

Lemma run_cmds_app (c1 c2 : list string) (fs : gmap string string) :
  run_cmds exec (c1 ++ c2) fs = run_cmds exec c2 (run_cmds exec c1 fs).
Proof. unfold run_cmds. apply fold_left_app. Qed.

Lemma succeed_app (c1 c2 : list string) (fs : gmap string string) :
  succeed exec (c1 ++ c2) fs <->
  succeed exec c1 fs /\ succeed exec c2 (run_cmds exec c1 fs).
Proof.
  revert fs. induction c1 as [|c c1 IH]; intros fs; simpl.
  - tauto.
  - rewrite IH. tauto.
Qed.

Lemma stage_ret {A} (a : A) (w : world) : stage exec (ret a) w [].
Proof.
  exists []. split; [reflexivity|]. split; [apply invoked_refl|].
  split; [intros _; reflexivity | intros; exact I].
Qed.

Lemma stage_raise {A} (e : Py.exn) (w : world) : stage exec (@raise A e) w [].
Proof.
  exists []. split; [reflexivity|]. split; [apply invoked_refl|].
  split; [intros _; reflexivity | intros; exact I].
Qed.

Lemma stage_bind {A B} (m : M A) (k : A -> M B) (w : world) (plan1 plan2 : list string) :
  stage exec m w plan1 ->
  (forall e, (m w).1 = Py.Raise e -> tool_failed (m w).1 = true) ->
  (forall a, (m w).1 = Py.Ok a -> stage exec (k a) (m w).2 plan2) ->
  stage exec (bind m k) w (plan1 ++ plan2).
Proof.
  intros (c1 & P1 & I1 & F1 & S1) Hraise Hk. unfold stage, bind.
  destruct (m w) as [[a|e] w1] eqn:Hm; cbn [fst snd] in *.
  - destruct (Hk a eq_refl) as (c2 & P2 & I2 & F2 & S2).
    rewrite (F1 eq_refl) in *.
    exists (plan1 ++ c2). split; [apply prefix_app; exact P2|].
    split; [exact (invoked_trans _ _ _ _ _ I1 I2)|].
    split.
    + intros Hf. rewrite (F2 Hf). reflexivity.
    + intros b Hb. apply succeed_app. split; [exact (S1 a eq_refl)|].
      destruct I1 as (_ & _ & _ & _ & <-). exact (S2 b Hb).
  - exists c1. split; [apply prefix_app_r; exact P1|].
    split; [exact I1|]. split.
    + intros Hf. specialize (Hraise e eq_refl).
      destruct e; simpl in Hf, Hraise; congruence.
    + intros b Hb. discriminate.
Qed.

Lemma stage_syscall (cmd : string) (v : bool) (w : world) :
  stage exec (syscall exec cmd v) w [cmd].
Proof.
  exists [cmd]. split; [reflexivity|]. split; [apply syscall_invoked|].
  split; [intros _; reflexivity|]. intros a. rewrite syscall_eq. cbn [fst].
  destruct (exec cmd (files w)).1 eqn:E; [intros _; simpl; auto | discriminate].
Qed.

Lemma syscall_raise (cmd : string) (v : bool) (w : world) (e : Py.exn) :
  (syscall exec cmd v w).1 = Py.Raise e -> tool_failed (syscall exec cmd v w).1 = true.
Proof.
  rewrite syscall_eq. cbn [fst]. destruct (exec cmd (files w)).1; [discriminate | reflexivity].
Qed.

Lemma stage_bowtie2_index (ref_fa outprefix bowtie2 : string) (v : bool) (w : world) :
  stage exec (bowtie2_index exec ref_fa outprefix bowtie2 v) w
    (if any_absent (files w) (bt2_files outprefix)
     then [build_cmd ref_fa outprefix bowtie2] else []).
Proof.
  unfold stage. rewrite bowtie2_index_eq.
  destruct (any_absent (files w) (bt2_files outprefix)).
  - apply stage_syscall.
  - apply (stage_ret tt).
Qed.

Lemma bowtie2_index_raise (ref_fa outprefix bowtie2 : string) (v : bool) (w : world) e :
  (bowtie2_index exec ref_fa outprefix bowtie2 v w).1 = Py.Raise e ->
  tool_failed (bowtie2_index exec ref_fa outprefix bowtie2 v w).1 = true.
Proof.
  rewrite bowtie2_index_eq.
  destruct (any_absent (files w) (bt2_files outprefix)); [apply syscall_raise | discriminate].
Qed.

Lemma stage_sort_block (out_prefix : string) (o : options) (cf : list string) (w : world) :
  stage exec (sort_block exec out_prefix o cf) w (sort_plan out_prefix o).
Proof.
  unfold sort_block, sort_plan. destruct (sort o).
  - destruct (Py.int_truediv 500 (Z.min 4 (threads o))) as [m|].
    + apply (stage_bind _ _ _ [_] [_]); [apply stage_syscall | apply syscall_raise |].
      intros _ _.
      apply (stage_bind _ _ _ [_] []); [apply stage_syscall | apply syscall_raise |].
      intros _ _. apply stage_ret.
    + apply stage_raise.
  - apply stage_ret.
Qed.

Lemma sort_block_ok (out_prefix : string) (o : options) (cf cf' : list string) (w : world) :
  (sort_block exec out_prefix o cf w).1 = Py.Ok cf' ->
  cf' = cf ++ (if sort o then [intermediate_bam out_prefix o] else []).
Proof.
  unfold sort_block. destruct (sort o).
  - destruct (Py.int_truediv 500 (Z.min 4 (threads o))) as [m|]; [|discriminate].
    unfold bind. rewrite syscall_eq.
    destruct (exec _ (files w)).1; cbv beta iota; [|discriminate].
    rewrite syscall_eq.
    destruct (exec _ _).1; cbv beta iota; [|discriminate].
    unfold ret. cbn [fst]. congruence.
  - unfold ret. cbn [fst]. rewrite app_nil_r. congruence.
Qed.

Lemma run_bowtie2_split reads_fwd reads_rev ref_fa out_prefix o w :
  run_bowtie2 exec reads_fwd reads_rev ref_fa out_prefix o w =
  bind (tools_phase exec reads_fwd reads_rev ref_fa out_prefix o) unlink_all w.
Proof.
  unfold run_bowtie2, tools_phase, bind.
  destruct (bowtie2_index _ _ _ _ _ w) as [[[]|e1] w1]; [|reflexivity].
  destruct (syscall _ _ _ w1) as [[[]|e2] w2]; reflexivity.
Qed.

Lemma stage_tools_phase reads_fwd reads_rev ref_fa out_prefix o w :
  stage exec (tools_phase exec reads_fwd reads_rev ref_fa out_prefix o) w
    (planned reads_fwd reads_rev ref_fa out_prefix o (files w)).
Proof.
  unfold tools_phase, planned.
  apply stage_bind; [apply stage_bowtie2_index | apply bowtie2_index_raise |].
  intros _ _.
  apply (stage_bind _ _ _ [_]); [apply stage_syscall | apply syscall_raise |].
  intros _ _. apply stage_sort_block.
Qed.

Lemma tools_phase_ok reads_fwd reads_rev ref_fa out_prefix o w cf :
  (tools_phase exec reads_fwd reads_rev ref_fa out_prefix o w).1 = Py.Ok cf ->
  cf = cleaned out_prefix o.
Proof.
  unfold tools_phase, bind, cleaned.
  destruct (bowtie2_index _ _ _ _ _ w) as [[[]|e1] w1]; [|discriminate].
  destruct (syscall _ _ _ w1) as [[[]|e2] w2]; [|discriminate].
  apply sort_block_ok.
Qed.

(** The whole run: the planned invocations, then the queued deletions. *)
Lemma run_bowtie2_spec reads_fwd reads_rev ref_fa out_prefix o w :
  exists cmds done w1,
    cmds `prefix_of` planned reads_fwd reads_rev ref_fa out_prefix o (files w) /\
    invoked exec w w1 cmds /\
    done `prefix_of` cleaned out_prefix o /\
    trace (run_bowtie2 exec reads_fwd reads_rev ref_fa out_prefix o w).2 =
      trace w1 ++ map Unlink done /\
    files (run_bowtie2 exec reads_fwd reads_rev ref_fa out_prefix o w).2 =
      delete_all done (files w1) /\
    (tool_failed (run_bowtie2 exec reads_fwd reads_rev ref_fa out_prefix o w).1 = false ->
       cmds = planned reads_fwd reads_rev ref_fa out_prefix o (files w)) /\
    (forall u, (run_bowtie2 exec reads_fwd reads_rev ref_fa out_prefix o w).1 = Py.Ok u ->
       done = cleaned out_prefix o /\ succeed exec cmds (files w)).
Proof.
  rewrite run_bowtie2_split.
  destruct (stage_tools_phase reads_fwd reads_rev ref_fa out_prefix o w)
    as (cmds & P & I & F & S).
  pose proof (tools_phase_ok reads_fwd reads_rev ref_fa out_prefix o w) as Hcf.
  unfold bind.
  destruct (tools_phase exec reads_fwd reads_rev ref_fa out_prefix o w) as [[cf|e] w1];
    cbn [fst snd] in *.
  - rewrite (Hcf cf eq_refl) in *.
    destruct (unlink_all_spec (cleaned out_prefix o) w1) as (done & Pd & Hw & Hok).
    exists cmds, done, w1. rewrite Hw. cbn [files trace].
    split; [exact P|]. split; [exact I|]. split; [exact Pd|].
    split; [reflexivity|]. split; [reflexivity|].
    split; [intros _; apply F; reflexivity|].
    intros u Hu. split; [exact (Hok u Hu) | exact (S _ eq_refl)].
  - exists cmds, [], w1. cbn [fst snd map]. rewrite app_nil_r.
    split; [exact P|]. split; [exact I|]. split; [apply prefix_nil|].
    split; [reflexivity|]. split; [reflexivity|].
    split; [exact F | intros u Hu; discriminate].
Qed.

(** The effects of a run, seen from the initial world. *)
Lemma run_bowtie2_effects reads_fwd reads_rev ref_fa out_prefix o w :
  exists cmds done evs,
    cmds `prefix_of` planned reads_fwd reads_rev ref_fa out_prefix o (files w) /\
    done `prefix_of` cleaned out_prefix o /\
    trace (run_bowtie2 exec reads_fwd reads_rev ref_fa out_prefix o w).2 =
      trace w ++ evs /\
    invocations evs = cmds /\
    unlinked evs = done /\
    files (run_bowtie2 exec reads_fwd reads_rev ref_fa out_prefix o w).2 =
      delete_all done (run_cmds exec cmds (files w)) /\
    (tool_failed (run_bowtie2 exec reads_fwd reads_rev ref_fa out_prefix o w).1 = false ->
       cmds = planned reads_fwd reads_rev ref_fa out_prefix o (files w)) /\
    (forall u, (run_bowtie2 exec reads_fwd reads_rev ref_fa out_prefix o w).1 = Py.Ok u ->
       done = cleaned out_prefix o /\ succeed exec cmds (files w)).
Proof.
  destruct (run_bowtie2_spec reads_fwd reads_rev ref_fa out_prefix o w)
    as (cmds & done & w1 & P & (evs & T & I & U & Fs) & Pd & Tr & Fl & Hf & Hok).
  exists cmds, done, (evs ++ map Unlink done).
  split; [exact P|]. split; [exact Pd|].
  split; [rewrite Tr, T, app_assoc; reflexivity|].
  split; [rewrite invocations_app, invocations_unlinks, I, app_nil_r; reflexivity|].
  split; [rewrite unlinked_app, unlinked_unlinks, U; reflexivity|].
  split; [rewrite Fl, Fs; reflexivity|].
  split; [exact Hf | exact Hok].
Qed.

Lemma elem_of_prefix (l1 l2 : list string) (x : string) :
  l1 `prefix_of` l2 -> x ∈ l1 -> x ∈ l2.
Proof. intros [k ->] Hx. apply elem_of_app. left. exact Hx. Qed.

Lemma run_cmds_frame (cmds : list string) (fs : gmap string string) (p : string) :
  (forall cmd fs', cmd ∈ cmds -> (exec cmd fs').2 !! p = fs' !! p) ->
  run_cmds exec cmds fs !! p = fs !! p.
Proof.
  revert fs. induction cmds as [|c cmds IH]; intros fs H; [reflexivity|].
  simpl. rewrite IH.
  - apply H. left.
  - intros cmd fs' Hc. apply H. right. exact Hc.
Qed.

Lemma run_cmds_keep (cmds : list string) (fs : gmap string string) (p : string) :
  (forall cmd fs', is_Some (fs' !! p) -> is_Some ((exec cmd fs').2 !! p)) ->
  is_Some (fs !! p) -> is_Some (run_cmds exec cmds fs !! p).
Proof.
  intros Hkeep. revert fs. induction cmds as [|c cmds IH]; intros fs H; [exact H|].
  simpl. apply IH. apply Hkeep. exact H.
Qed.

(** ** Sorting *)

Lemma int_truediv_threads (t : Z) :
  1 <= t -> Py.int_truediv 500 (Z.min 4 t) = Some (500 / Z.min 4 t).
Proof.
  intros Ht. unfold Py.int_truediv.
  destruct (Z.eqb_spec (Z.min 4 t) 0); [lia|].
  f_equal. apply Z.quot_div_nonneg; lia.
Qed.

Lemma sort_threads_table (t : Z) :
  1 <= t ->
  (Z.min 4 t, 500 / Z.min 4 t) =
  if t =? 1 then (1, 500) else if t =? 2 then (2, 250)
  else if t =? 3 then (3, 166) else (4, 125).
Proof.
  intros Ht.
  destruct (Z.eqb_spec t 1) as [->|]; [reflexivity|].
  destruct (Z.eqb_spec t 2) as [->|]; [reflexivity|].
  destruct (Z.eqb_spec t 3) as [->|]; [reflexivity|].
  replace (Z.min 4 t) with 4 by lia. reflexivity.
Qed.

(** C5. With [sort] and a thread count of at least 1, a run in which no
    tool fails invokes, after the mapping pipeline, the sort tool with
    [-@min(4,t)] and [-m(500 / min(4,t))M] and then the indexing tool on
    [out_prefix.bam], in that order and last; the two numbers are 1 and
    500, 2 and 250, 3 and 166, or 4 and 125. *)
Theorem run_bowtie2_sort_invocations reads_fwd reads_rev ref_fa out_prefix o w :
  sort o = true ->
  1 <= threads o ->
  tool_failed (run_bowtie2 exec reads_fwd reads_rev ref_fa out_prefix o w).1 = false ->
  let t := Z.min 4 (threads o) in
  (exists evs before,
     trace (run_bowtie2 exec reads_fwd reads_rev ref_fa out_prefix o w).2 =
       trace w ++ evs /\
     invocations evs =
       before ++
       [ Py.join " " [ samtools o; "sort";
                       "-@" +:+ Py.str t;
                       "-m" +:+ Py.str (500 / t) +:+ "M";
                       "-o"; out_prefix +:+ ".bam";
                       "-O bam";
                       "-T"; out_prefix +:+ ".tmp.samtool_sort";
                       out_prefix +:+ ".unsorted.bam" ];
         samtools o +:+ " index " +:+ out_prefix +:+ ".bam" ]) /\
  (t, 500 / t) =
    (if threads o =? 1 then (1, 500) else if threads o =? 2 then (2, 250)
     else if threads o =? 3 then (3, 166) else (4, 125)).
Proof.
  intros Hsort Ht Hnf t. split; [|apply sort_threads_table; exact Ht].
  destruct (run_bowtie2_effects reads_fwd reads_rev ref_fa out_prefix o w)
    as (cmds & done & evs & _ & _ & T & I & _ & _ & Hplan & _).
  exists evs. rewrite I, (Hplan Hnf). unfold planned.
  rewrite Hsort, (int_truediv_threads _ Ht).
  eexists. rewrite app_assoc. f_equal.
  unfold sort_cmd, index_cmd, final_bam, intermediate_bam. rewrite Hsort.
  split; [exact T | reflexivity].
Qed.

(** ** The intermediate file *)

Lemma map_cmd_redirect reads_fwd reads_rev ref_fa out_prefix o :
  exists front,
    map_cmd reads_fwd reads_rev ref_fa out_prefix o =
    Py.join " " (front ++ ["- >"; intermediate_bam out_prefix o]).
Proof.
  rewrite map_cmd_filter_stage. eexists.
  f_equal. rewrite !app_assoc.
  change [ "|"; samtools o; "view"; "-bS -T"; ref_fa; "- >";
           intermediate_bam out_prefix o ]
    with ([ "|"; samtools o; "view"; "-bS -T"; ref_fa ] ++
          [ "- >"; intermediate_bam out_prefix o ]).
  rewrite app_assoc. reflexivity.
Qed.

Lemma initial_clean_files_index out_prefix o f :
  f ∈ initial_clean_files out_prefix o -> f ∈ bt2_files (map_index out_prefix).
Proof.
  unfold initial_clean_files. destruct (clean_index o); [auto|].
  intros H. inversion H.
Qed.

(** ** The index files *)


End RunFacts.

(* ===================================================================== *)
(** * Concrete runs                                                       *)
(* ===================================================================== *)

Lemma touch_keeps (fs : gmap string string) (p f : string) :
  is_Some (fs !! f) -> is_Some (touch fs p !! f).
Proof.
  intros H. unfold touch. destruct (fs !! p) eqn:Hp; [exact H|].
  rewrite lookup_insert. case_decide; [eauto | exact H].
Qed.

Lemma touch_creates (fs : gmap string string) (p : string) :
  is_Some (touch fs p !! p).
Proof.
  unfold touch. destruct (fs !! p) eqn:Hp; [eauto|].
  rewrite lookup_insert_eq. eauto.
Qed.

Lemma fake_tools_keep (outputs : list string) (cmd : string)
    (fs : gmap string string) (f : string) :
  is_Some (fs !! f) -> is_Some ((fake_tools outputs cmd fs).2 !! f).
Proof.
  unfold fake_tools. cbn [snd]. revert fs.
  induction outputs as [|p outputs IH]; intros fs H; [exact H|].
  simpl. apply IH. apply touch_keeps. exact H.
Qed.

Lemma fake_tools_create (outputs : list string) (cmd : string)
    (fs : gmap string string) (f : string) :
  f ∈ outputs -> is_Some ((fake_tools outputs cmd fs).2 !! f).
Proof.
  unfold fake_tools. cbn [snd]. revert fs.
  induction outputs as [|p outputs IH]; intros fs H; [inversion H|].
  simpl. apply elem_of_cons in H as [-> | H].
  - apply (fake_tools_keep outputs cmd). apply touch_creates.
  - apply IH. exact H.
Qed.

Lemma bowtie2_index_all_present_noop_witness :
  (forall f, f ∈ bt2_files "ref" -> is_Some (files stale_index_world !! f)) /\
  bowtie2_index broken_tools "ref.fa" "ref" "bowtie2" true stale_index_world =
    (Py.Ok tt, stale_index_world).
Proof.
  assert (H : forall f, f ∈ bt2_files "ref" -> is_Some (files stale_index_world !! f)).
  { apply any_absent_false. vm_compute. reflexivity. }
  split; [exact H|].
  exact (bowtie2_index_all_present_noop broken_tools "ref.fa" "ref" "bowtie2" true
           stale_index_world H).
Defined.

Lemma bowtie2_index_missing_builds_once_witness :
  "ref.3.bt2" ∈ bt2_files "ref" /\
  files empty_world !! "ref.3.bt2" = None /\
  invoked (fake_tools (bt2_files "ref")) empty_world
    (bowtie2_index (fake_tools (bt2_files "ref")) "ref.fa" "ref" "bowtie2" false
       empty_world).2
    ["bowtie2-build -q ref.fa ref"].
Proof.
  assert (H : "ref.3.bt2" ∈ bt2_files "ref").
  { vm_compute. right. right. left. }
  split; [exact H|]. split; [reflexivity|].
  exact (proj1 (proj2 (proj2
    (bowtie2_index_missing_builds_once (fake_tools (bt2_files "ref"))
       "ref.fa" "ref" "bowtie2" false empty_world "ref.3.bt2" H eq_refl)))).
Defined.

Lemma run_bowtie2_sort_invocations_witness :
  sort sorting_options = true /\
  1 <= threads sorting_options /\
  tool_failed
    (run_bowtie2 (fake_tools out_files) "r1.fq" "r2.fq" "ref.fa" "out"
       sorting_options empty_world).1 = false /\
  exists evs before,
    trace (run_bowtie2 (fake_tools out_files) "r1.fq" "r2.fq" "ref.fa" "out"
             sorting_options empty_world).2 = trace empty_world ++ evs /\
    invocations evs =
      before ++
      [ "samtools sort -@3 -m166M -o out.bam -O bam -T out.tmp.samtool_sort out.unsorted.bam";
        "samtools index out.bam" ].
Proof.
  assert (Ht : 1 <= threads sorting_options) by (simpl; lia).
  assert (Hnf : tool_failed
            (run_bowtie2 (fake_tools out_files) "r1.fq" "r2.fq" "ref.fa" "out"
               sorting_options empty_world).1 = false) by (vm_compute; reflexivity).
  split; [reflexivity|]. split; [exact Ht|]. split; [exact Hnf|].
  exact (proj1 (run_bowtie2_sort_invocations (fake_tools out_files)
                  "r1.fq" "r2.fq" "ref.fa" "out" sorting_options empty_world
                  eq_refl Ht Hnf)).
Defined.


(** A run without [sort] never names [out.unsorted.bam]; a run with [sort]
    creates and removes it. *)
Example run_without_sort :
  let res := run_bowtie2 (fake_tools ["out.map_index.1.bt2"; "out.bam"])
               "r1.fq" "r2.fq" "ref.fa" "out" keeping_options stale_index_world in
  res.1 = Py.Ok tt /\
  invocations (trace res.2) =
    [ "bowtie2-build -q ref.fa out.map_index";
      "bowtie2 --threads 1 --reorder --very-sensitive-local -X 1000 -x out.map_index -1 r1.fq -2 r2.fq | samtools view -bS -T ref.fa - > out.bam" ] /\
  unlinked (trace res.2) = [] /\
  files res.2 !! "out.unsorted.bam" = None.
Proof. vm_compute. repeat split. Qed.

Example run_with_sort :
  let res := run_bowtie2 (fake_tools out_files)
               "r1.fq" "r2.fq" "ref.fa" "out" sorting_options empty_world in
  res.1 = Py.Ok tt /\
  unlinked (trace res.2) = bt2_files (map_index "out") ++ ["out.unsorted.bam"] /\
  files res.2 !! "out.unsorted.bam" = None /\
  is_Some (files res.2 !! "out.bam").
Proof. vm_compute. repeat split. eauto. Qed.

(** Without the index files a run that is asked to clean them fails at the
    first [os.unlink], after the tools have run. *)
Example run_unlink_failure :
  run_bowtie2 (fake_tools ["out.bam"]) "r1.fq" "r2.fq" "ref.fa" "out"
    default_options empty_world
  = (Py.Raise (Py.FileNotFoundError "out.map_index.1.bt2"),
     {| files := {["out.bam" := ""]};
        trace := [ Exec "bowtie2-build -q ref.fa out.map_index";
                   Exec "bowtie2 --threads 1 --reorder --very-sensitive-local -X 1000 -x out.map_index -1 r1.fq -2 r2.fq | samtools view -bS -T ref.fa - > out.bam" ];
        undeletable := ∅ |}).
Proof. vm_compute. reflexivity. Qed.

(* ===================================================================== *)
(** * Further properties: the filter and the two readers                  *)
(* ===================================================================== *)

Lemma filter_keeps_bits (f : Z) :
  filter_keeps f = negb (Z.testbit f 2 && Z.testbit f 3).
Proof.
  rewrite filter_keeps_unfold.
  pose proof (land_pow2_eqb f 2 ltac:(lia)) as H4.
  pose proof (land_pow2_eqb f 3 ltac:(lia)) as H8.
  change (2 ^ 2) with 4 in H4. change (2 ^ 3) with 8 in H8. rewrite H4, H8.
  destruct (Z.testbit f 2), (Z.testbit f 3); reflexivity.
Qed.

(** X1. The filter never splits a pair: when the flags of two mates agree
    on who is unmapped (the unmapped bit of each is the mate-unmapped bit of
    the other), both records are kept or both are dropped. *)
Theorem filter_keeps_pair_consistent (f1 f2 : Z) :
  Z.testbit f1 2 = Z.testbit f2 3 ->
  Z.testbit f1 3 = Z.testbit f2 2 ->
  filter_keeps f1 = filter_keeps f2.
Proof.
  intros H1 H2. rewrite !filter_keeps_bits, H1, H2.
  destruct (Z.testbit f2 2), (Z.testbit f2 3); reflexivity.
Qed.

Lemma filter_keeps_pair_consistent_witness :
  Z.testbit 73 2 = Z.testbit 133 3 /\
  Z.testbit 73 3 = Z.testbit 133 2 /\
  filter_keeps 73 = filter_keeps 133.
Proof.
  split; [reflexivity|]. split; [reflexivity|].
  apply (filter_keeps_pair_consistent 73 133); reflexivity.
Defined.

(** ** sam_to_fastq *)

Lemma string_length_chars (s : string) :
  String.length s = length (list_ascii_of_string s).
Proof. induction s as [|c s IH]; simpl; [reflexivity | now rewrite IH]. Qed.

Lemma chars_inj (s t : string) :
  list_ascii_of_string s = list_ascii_of_string t -> s = t.
Proof.
  intros H. rewrite <- (string_of_list_ascii_of_string s),
    <- (string_of_list_ascii_of_string t), H. reflexivity.
Qed.

Lemma reversed_length (s : string) : String.length (Py.reversed s) = String.length s.
Proof. rewrite !string_length_chars, chars_reversed. apply length_reverse. Qed.

Lemma translate_length tbl (s : string) :
  String.length (Py.translate tbl s) = String.length s.
Proof. rewrite !string_length_chars, chars_translate. apply length_map. Qed.

Lemma reversed_involutive (s : string) : Py.reversed (Py.reversed s) = s.
Proof. apply chars_inj. rewrite !chars_reversed. apply reverse_involutive. Qed.

Lemma translate_char_revcomp_involutive (c : ascii) :
  Py.translate_char revcomp_table (Py.translate_char revcomp_table c) = c.
Proof.
  destruct c as [b0 b1 b2 b3 b4 b5 b6 b7].
  destruct b0, b1, b2, b3, b4, b5, b6, b7; reflexivity.
Qed.

Lemma revcomp_seq_involutive (s : string) :
  Py.reversed (Py.translate revcomp_table
    (Py.reversed (Py.translate revcomp_table s))) = s.
Proof.
  apply chars_inj.
  rewrite chars_reversed, chars_translate, chars_reversed, chars_translate.
  change (map (Py.translate_char revcomp_table)) with (fmap (M:=list) (Py.translate_char revcomp_table)).
  rewrite fmap_reverse, reverse_involutive, <- list_fmap_compose.
  induction (list_ascii_of_string s) as [|c l IH]; [reflexivity|].
  rewrite fmap_cons. unfold compose at 1.
  rewrite translate_char_revcomp_involutive. f_equal. exact IH.
Qed.

(** The record [sam_to_fastq] builds before it looks at the strand. *)
Lemma sam_to_fastq_ok_shape (sam : AlignedSegment) (fq : Fastq) :
  sam_to_fastq sam = Py.Ok fq ->
  fq = (let fq0 := {| fq_id := qname sam +:+ (if is_read1 sam then "/1" else "/2");
                      fq_seq := decode (seq sam);
                      fq_qual := decode (qual sam) |} in
        if is_reverse sam then revcomp fq0 else fq0).
Proof.
  intros H.
  destruct (is_read1 sam) eqn:H1; [|destruct (is_read2 sam) eqn:H2].
  - rewrite (sam_to_fastq_read1 sam H1) in H. congruence.
  - rewrite (sam_to_fastq_read2 sam H1 H2) in H. congruence.
  - rewrite (sam_to_fastq_unpaired sam H1 H2) in H. discriminate.
Qed.

(** X2. Conversion keeps lengths, on either strand: the bases of the result
    are as many as the stored bases and the qualities as many as the stored
    qualities, so a record with one quality per base gives a sequence record
    with one quality per base. *)
Theorem sam_to_fastq_lengths (sam : AlignedSegment) (fq : Fastq) :
  sam_to_fastq sam = Py.Ok fq ->
  String.length (fq_seq fq) = String.length (decode (seq sam)) /\
  String.length (fq_qual fq) = String.length (decode (qual sam)) /\
  (String.length (decode (seq sam)) = String.length (decode (qual sam)) ->
   String.length (fq_seq fq) = String.length (fq_qual fq)).
Proof.
  intros H. apply sam_to_fastq_ok_shape in H. cbv zeta in H.
  assert (E : String.length (fq_seq fq) = String.length (decode (seq sam)) /\
              String.length (fq_qual fq) = String.length (decode (qual sam))).
  { subst fq. destruct (is_reverse sam); simpl.
    - rewrite !reversed_length, translate_length. auto.
    - auto. }
  destruct E as [E1 E2]. split; [exact E1|]. split; [exact E2|].
  intros Hlen. rewrite E1, E2. exact Hlen.
Qed.

Lemma sam_to_fastq_lengths_witness :
  sam_to_fastq readA_reverse =
    Py.Ok {| fq_id := "readA/1"; fq_seq := "CCGT"; fq_qual := "LKJI" |} /\
  String.length "CCGT" = String.length (decode (seq readA_reverse)).
Proof.
  split; [reflexivity|].
  exact (proj1 (sam_to_fastq_lengths readA_reverse
                  {| fq_id := "readA/1"; fq_seq := "CCGT"; fq_qual := "LKJI" |}
                  eq_refl)).
Defined.

Lemma flag_has_lxor_other (f a b : Z) :
  Z.land a b = 0 -> flag_has (Z.lxor f a) b = flag_has f b.
Proof.
  intros H. unfold flag_has. f_equal. f_equal.
  apply Z.bits_inj'. intros m Hm.
  rewrite !Z.land_spec, Z.lxor_spec.
  assert (Hab : Z.testbit a m && Z.testbit b m = false)
    by (rewrite <- Z.land_spec, H; apply Z.bits_0).
  destruct (Z.testbit f m), (Z.testbit a m), (Z.testbit b m);
    simpl in *; congruence.
Qed.

Lemma is_reverse_other_strand (sam : AlignedSegment) :
  is_reverse (other_strand sam) = negb (is_reverse sam).
Proof.
  unfold is_reverse, other_strand. cbn [flag].
  rewrite !(flag_has_testbit _ 4) by lia.
  rewrite Z.lxor_spec. change (Z.testbit FREVERSE 4) with true.
  apply xorb_true_r.
Qed.

(** X3. Strand round trip: a read stored on the other strand (strand bit
    flipped, bases reverse-complemented, qualities reversed) converts to the
    same result, sequence record or error, as the read itself. *)
Theorem sam_to_fastq_other_strand (sam : AlignedSegment) :
  sam_to_fastq (other_strand sam) = sam_to_fastq sam.
Proof.
  pose proof (is_reverse_other_strand sam) as Hrev.
  assert (H1 : is_read1 (other_strand sam) = is_read1 sam)
    by (apply flag_has_lxor_other; reflexivity).
  assert (H2 : is_read2 (other_strand sam) = is_read2 sam)
    by (apply flag_has_lxor_other; reflexivity).
  unfold sam_to_fastq. rewrite H1, H2, Hrev.
  destruct (is_read1 sam); [|destruct (is_read2 sam); [|reflexivity]];
    destruct (is_reverse sam); unfold revcomp, other_strand;
    cbn [negb qname seq qual decode fq_id fq_seq fq_qual];
    rewrite ?revcomp_seq_involutive, ?reversed_involutive; reflexivity.
Qed.

Lemma flag_has_converter_bits (f bit : Z) :
  Z.land converter_bits bit = bit ->
  flag_has f bit = flag_has (Z.land f converter_bits) bit.
Proof.
  intros H. unfold flag_has. rewrite <- Z.land_assoc, H. reflexivity.
Qed.

(** X4. The conversion reads the name, the sequence, the qualities and
    three flag bits only: two records that agree on these convert alike,
    whatever their other flag bits (unmapped, duplicate, secondary ...) and
    their tags. *)
Theorem sam_to_fastq_reads_three_bits (sam sam' : AlignedSegment) :
  qname sam = qname sam' ->
  seq sam = seq sam' ->
  qual sam = qual sam' ->
  Z.land (flag sam) converter_bits = Z.land (flag sam') converter_bits ->
  sam_to_fastq sam = sam_to_fastq sam'.
Proof.
  intros Hn Hs Hq Hf.
  assert (Hb : forall bit, Z.land converter_bits bit = bit ->
                 flag_has (flag sam) bit = flag_has (flag sam') bit).
  { intros bit Hbit.
    rewrite (flag_has_converter_bits (flag sam) bit Hbit),
            (flag_has_converter_bits (flag sam') bit Hbit), Hf. reflexivity. }
  unfold sam_to_fastq, is_read1, is_read2, is_reverse.
  rewrite (Hb FREAD1 eq_refl), (Hb FREAD2 eq_refl), (Hb FREVERSE eq_refl), Hn, Hs, Hq.
  reflexivity.
Qed.

Lemma sam_to_fastq_reads_three_bits_witness :
  Z.land (flag readA_reverse) converter_bits =
    Z.land (flag readA_duplicate) converter_bits /\
  sam_to_fastq readA_reverse = sam_to_fastq readA_duplicate.
Proof.
  split; [reflexivity|].
  apply (sam_to_fastq_reads_three_bits readA_reverse readA_duplicate); reflexivity.
Defined.

(** ** get_total_alignment_score *)

Lemma total_app (bam1 bam2 : list AlignedSegment) :
  get_total_alignment_score (bam1 ++ bam2) =
  get_total_alignment_score bam1 + get_total_alignment_score bam2.
Proof.
  unfold get_total_alignment_score. rewrite fold_left_app.
  apply fold_add_score_from.
Qed.

(** X5. The total of two files read one after the other is the sum of
    their totals. *)
Theorem get_total_alignment_score_app (bam1 bam2 : list AlignedSegment) :
  get_total_alignment_score (bam1 ++ bam2) =
  get_total_alignment_score bam1 + get_total_alignment_score bam2.
Proof.
  unfold get_total_alignment_score. rewrite fold_left_app.
  apply fold_add_score_from.
Qed.

(** X6. The total does not depend on the order of the records: a sorted
    file and the unsorted file it was made from have the same total. *)
Theorem get_total_alignment_score_permutation (bam1 bam2 : list AlignedSegment) :
  bam1 ≡ₚ bam2 ->
  get_total_alignment_score bam1 = get_total_alignment_score bam2.
Proof.
  induction 1 as [|sam l l' _ IH|a b l|l l' l'' _ IH1 _ IH2].
  - reflexivity.
  - rewrite !total_cons, IH. reflexivity.
  - rewrite !total_cons. lia.
  - congruence.
Qed.

Lemma get_total_alignment_score_permutation_witness :
  [scored "r2" 7; unscored "r1"; scored "r4" (-2)] ≡ₚ
    [unscored "r1"; scored "r2" 7; scored "r4" (-2)] /\
  get_total_alignment_score [scored "r2" 7; unscored "r1"; scored "r4" (-2)] =
  get_total_alignment_score [unscored "r1"; scored "r2" 7; scored "r4" (-2)].
Proof.
  assert (H : [scored "r2" 7; unscored "r1"; scored "r4" (-2)] ≡ₚ
              [unscored "r1"; scored "r2" 7; scored "r4" (-2)])
    by apply perm_swap.
  split; [exact H|].
  exact (get_total_alignment_score_permutation _ _ H).
Defined.

(** X7. A record whose [AS] tag holds a string instead of an integer is
    skipped like a record without the tag: the failed addition is swallowed
    and the total is that of the file without the record. *)
Theorem get_total_alignment_score_skips_string_tag
    (bam1 bam2 : list AlignedSegment) (sam : AlignedSegment) (s : string) :
  opt sam "AS" = Some (TagStr s) ->
  get_total_alignment_score (bam1 ++ sam :: bam2) =
  get_total_alignment_score (bam1 ++ bam2).
Proof.
  intros H. rewrite !total_app, total_cons.
  unfold add_score. rewrite H. lia.
Qed.

Lemma get_total_alignment_score_skips_string_tag_witness :
  opt (string_scored "r9" "12") "AS" = Some (TagStr "12") /\
  get_total_alignment_score
    ([scored "r2" 7] ++ string_scored "r9" "12" :: [scored "r5" 30]) =
  get_total_alignment_score ([scored "r2" 7] ++ [scored "r5" 30]).
Proof.
  split; [reflexivity|].
  apply (get_total_alignment_score_skips_string_tag _ _ _ "12"). reflexivity.
Defined.

(** X8. When every integer score of the file lies between [lo <= 0] and
    [hi >= 0], the total lies between [N * lo] and [N * hi] for a file of
    [N] records. *)
Theorem get_total_alignment_score_bounds
    (bam : list AlignedSegment) (lo hi : Z) :
  lo <= 0 <= hi ->
  (forall sam v, sam ∈ bam -> opt sam "AS" = Some (TagInt v) -> lo <= v <= hi) ->
  Z.of_nat (length bam) * lo <= get_total_alignment_score bam
    <= Z.of_nat (length bam) * hi.
Proof.
  intros Hz. induction bam as [|sam bam IH]; intros H.
  - unfold get_total_alignment_score. simpl. lia.
  - rewrite total_cons.
    assert (IH' : Z.of_nat (length bam) * lo <= get_total_alignment_score bam
                    <= Z.of_nat (length bam) * hi).
    { apply IH. intros s v Hs. apply H. right. exact Hs. }
    assert (Hsam : lo <= add_score 0 sam <= hi).
    { unfold add_score. destruct (opt sam "AS") as [[v|s]|] eqn:E; try lia.
      specialize (H sam v ltac:(left) E). lia. }
    cbn [length]. lia.
Qed.

Lemma get_total_alignment_score_bounds_witness :
  -2 <= 0 <= 30 /\
  Z.of_nat (length small_bam) * -2 <= get_total_alignment_score small_bam
    <= Z.of_nat (length small_bam) * 30.
Proof.
  assert (Hz : -2 <= 0 <= 30) by lia.
  split; [exact Hz|].
  apply (get_total_alignment_score_bounds small_bam (-2) 30 Hz).
  intros sam v Hsam Hv. unfold small_bam in Hsam.
  repeat (apply elem_of_cons in Hsam as [-> | Hsam];
          [vm_compute in Hv; try discriminate; injection Hv as <-; lia|]).
  inversion Hsam.
Defined.

(* ===================================================================== *)
(** * Further properties: the outcome of a run                            *)
(* ===================================================================== *)

Lemma bt2_file_not_final (out_prefix f : string) :
  f ∈ bt2_files (map_index out_prefix) -> f <> final_bam out_prefix.
Proof.
  rewrite bt2_files_map_index. intros Hf.
  apply list_elem_of_fmap in Hf as (sfx & -> & Hsfx).
  unfold final_bam. apply append_same_prefix_ne.
  repeat (apply elem_of_cons in Hsfx as [-> | Hsfx]; [discriminate|]).
  inversion Hsfx.
Qed.

Lemma final_bam_not_cleaned (out_prefix : string) (o : options) :
  final_bam out_prefix ∉ cleaned out_prefix o.
Proof.
  unfold cleaned. intros Hin. apply elem_of_app in Hin as [Hin|Hin].
  - apply initial_clean_files_index in Hin.
    exact (bt2_file_not_final _ _ Hin eq_refl).
  - unfold intermediate_bam in Hin. destruct (sort o); [|inversion Hin].
    apply list_elem_of_singleton in Hin.
    exact (final_not_unsorted _ Hin).
Qed.

Lemma NoDup_bt2_files_map_index (out_prefix : string) :
  NoDup (bt2_files (map_index out_prefix)).
Proof.
  rewrite bt2_files_map_index.
  apply (NoDup_fmap_2 (String.app out_prefix)).
  apply (bool_decide_unpack _). vm_compute. exact I.
Qed.

Lemma NoDup_cleaned (out_prefix : string) (o : options) :
  NoDup (cleaned out_prefix o).
Proof.
  unfold cleaned. apply NoDup_app. split; [|split].
  - unfold initial_clean_files. destruct (clean_index o);
      [apply NoDup_bt2_files_map_index | apply NoDup_nil_2].
  - intros f Hf Hin. apply initial_clean_files_index in Hf.
    unfold intermediate_bam in Hin. destruct (sort o); [|inversion Hin].
    apply list_elem_of_singleton in Hin.
    exact (bt2_file_not_unsorted _ _ Hf Hin).
  - destruct (sort o); [apply NoDup_singleton | apply NoDup_nil_2].
Qed.

(** ** The clean-up loop *)

Lemma unlink_all_raise (l : list string) (w : world) (e : Py.exn) :
  (unlink_all l w).1 = Py.Raise e ->
  exists done p rest,
    l = done ++ p :: rest /\
    (unlink_all l w).2 =
      {| files := delete_all done (files w); trace := trace w ++ map Unlink done;
         undeletable := undeletable w |} /\
    ((e = Py.FileNotFoundError p /\ delete_all done (files w) !! p = None) \/
     (e = Py.PermissionError p /\ is_Some (delete_all done (files w) !! p) /\
      p ∈ undeletable w)).
Proof.
  revert w. induction l as [|f l IH]; intros w; [discriminate|].
  simpl. unfold bind, unlink. destruct (files w !! f) as [c|] eqn:Hf.
  - destruct (bool_decide (f ∈ undeletable w)) eqn:Hd.
    + intros He. injection He as <-. exists [], f, l.
      split; [reflexivity|].
      split; [cbn [snd map delete_all fold_left]; rewrite app_nil_r;
              destruct w; reflexivity|].
      right. split; [reflexivity|]. split; [cbn; eauto|].
      apply bool_decide_eq_true in Hd. exact Hd.
    + intros He.
      destruct (IH {| files := delete f (files w); trace := trace w ++ [Unlink f];
                      undeletable := undeletable w |} He)
        as (done & p & rest & -> & Hw & Hcase).
      exists (f :: done), p, rest. split; [reflexivity|].
      split; [rewrite Hw; cbn [files trace undeletable map delete_all fold_left];
              rewrite <- app_assoc; reflexivity|].
      exact Hcase.
  - intros He. injection He as <-. exists [], f, l.
    split; [reflexivity|].
    split; [cbn [snd map delete_all fold_left]; rewrite app_nil_r;
            destruct w; reflexivity|].
    left. split; [reflexivity | exact Hf].
Qed.

Lemma unlink_all_completes (l : list string) (w : world) :
  NoDup l ->
  (forall f, f ∈ l -> is_Some (files w !! f) /\ f ∉ undeletable w) ->
  (unlink_all l w).1 = Py.Ok tt.
Proof.
  revert w. induction l as [|f l IH]; intros w Hnd Hall; [reflexivity|].
  apply NoDup_cons in Hnd as [Hnotin Hnd].
  simpl. unfold bind, unlink.
  destruct (Hall f ltac:(left)) as [[c Hc] Hdel]. rewrite Hc.
  rewrite (bool_decide_eq_false_2 _ Hdel).
  apply IH; [exact Hnd|]. intros g Hg. cbn [files undeletable].
  rewrite lookup_delete_ne by (intros ->; contradiction).
  apply Hall. right. exact Hg.
Qed.

Lemma unlink_all_ok_present (l : list string) (w : world) (u : unit) :
  (unlink_all l w).1 = Py.Ok u ->
  forall f, f ∈ l -> is_Some (files w !! f) /\ f ∉ undeletable w.
Proof.
  revert w. induction l as [|f l IH]; intros w Hok g Hg; [inversion Hg|].
  simpl in Hok. unfold bind, unlink in Hok.
  destruct (files w !! f) as [c|] eqn:Hf; [|discriminate].
  destruct (bool_decide (f ∈ undeletable w)) eqn:Hd; [discriminate|].
  apply bool_decide_eq_false in Hd.
  apply elem_of_cons in Hg as [-> | Hg]; [eauto|].
  specialize (IH _ Hok g Hg). cbn [files undeletable] in IH.
  destruct IH as [IH1 IH2]. split; [|exact IH2].
  destruct (decide (f = g)) as [->|Hne]; [eauto|].
  rewrite lookup_delete_ne in IH1 by exact Hne. exact IH1.
Qed.

Section RunOutcomes.

Variable exec : string -> gmap string string -> bool * gmap string string.

(** ** How a stage fails *)

Lemma fails_ret {A} (a : A) (w : world) (plan : list string) :
  fails exec (ret a) w plan.
Proof. intros e He. discriminate. Qed.

Lemma fails_bind {A B} (m : M A) (k : A -> M B) (w : world)
    (plan1 plan2 : list string) :
  stage exec m w plan1 ->
  fails exec m w plan1 ->
  (forall e, (m w).1 = Py.Raise e -> tool_failed (m w).1 = true) ->
  (forall a, (m w).1 = Py.Ok a -> fails exec (k a) (m w).2 plan2) ->
  fails exec (bind m k) w (plan1 ++ plan2).
Proof.
  intros (c1 & P1 & I1 & F1 & S1) Hf Hraise Hk e. unfold fails in Hf. unfold bind.
  destruct (m w) as [[a|e1] w1] eqn:Hm; cbn [fst snd] in *.
  - intros He. rewrite (F1 eq_refl) in *.
    pose proof (S1 a eq_refl) as Hs1.
    assert (Hfs : files w1 = run_cmds exec plan1 (files w))
      by (destruct I1 as (_ & _ & _ & _ & Hfs); exact Hfs).
    destruct (Hk a eq_refl e He)
      as [(-> & I2 & S2) | (pre & c & post & -> & -> & Spre & Hc & I2)].
    + left. split; [reflexivity|].
      split; [exact (invoked_trans exec _ _ _ _ _ I1 I2)|].
      apply succeed_app. rewrite <- Hfs. auto.
    + right. exists (plan1 ++ pre), c, post.
      split; [reflexivity|]. split; [rewrite app_assoc; reflexivity|].
      split; [apply succeed_app; rewrite <- Hfs; auto|].
      split; [rewrite run_cmds_app, <- Hfs; exact Hc|].
      rewrite <- app_assoc. exact (invoked_trans exec _ _ _ _ _ I1 I2).
  - intros He. injection He as <-.
    destruct (Hf e1 eq_refl)
      as [(-> & _) | (pre & c & post & -> & -> & Spre & Hc & I2)].
    + specialize (Hraise _ eq_refl). discriminate.
    + right. exists pre, c, (post ++ plan2).
      split; [reflexivity|]. split; [rewrite <- app_assoc; reflexivity|].
      auto.
Qed.

Lemma fails_syscall (cmd : string) (v : bool) (w : world) :
  fails exec (syscall exec cmd v) w [cmd].
Proof.
  intros e He. pose proof (syscall_invoked exec cmd v w) as I.
  rewrite syscall_eq in He. cbn [fst] in He.
  destruct (exec cmd (files w)).1 eqn:E; [discriminate|]. injection He as <-.
  right. exists [], cmd, []. simpl. auto.
Qed.

Lemma fails_bowtie2_index (ref_fa outprefix bowtie2 : string) (v : bool) (w : world) :
  fails exec (bowtie2_index exec ref_fa outprefix bowtie2 v) w
    (if any_absent (files w) (bt2_files outprefix)
     then [build_cmd ref_fa outprefix bowtie2] else []).
Proof.
  unfold fails. rewrite bowtie2_index_eq.
  destruct (any_absent (files w) (bt2_files outprefix)).
  - apply fails_syscall.
  - intros e He. discriminate.
Qed.

Lemma fails_sort_block (out_prefix : string) (o : options) (cf : list string) (w : world) :
  fails exec (sort_block exec out_prefix o cf) w (sort_plan out_prefix o).
Proof.
  unfold sort_block, sort_plan. destruct (sort o).
  - destruct (Py.int_truediv 500 (Z.min 4 (threads o))) as [m|].
    + apply (fails_bind _ _ _ [_] [_]);
        [apply stage_syscall | apply fails_syscall | apply syscall_raise |].
      intros _ _.
      apply (fails_bind _ _ _ [_] []);
        [apply stage_syscall | apply fails_syscall | apply syscall_raise |].
      intros _ _. apply fails_ret.
    + intros e He. injection He as <-. left.
      split; [reflexivity|]. split; [apply invoked_refl | exact I].
  - apply fails_ret.
Qed.

Lemma fails_tools_phase reads_fwd reads_rev ref_fa out_prefix o w :
  fails exec (tools_phase exec reads_fwd reads_rev ref_fa out_prefix o) w
    (planned reads_fwd reads_rev ref_fa out_prefix o (files w)).
Proof.
  unfold tools_phase, planned.
  apply fails_bind;
    [apply stage_bowtie2_index | apply fails_bowtie2_index
    | apply bowtie2_index_raise |].
  intros _ _.
  apply (fails_bind _ _ _ [_]);
    [apply stage_syscall | apply fails_syscall | apply syscall_raise |].
  intros _ _. apply fails_sort_block.
Qed.

(** ** When a stage completes *)

Lemma completes_ret {A} (a : A) (w : world) (plan : list string) :
  completes exec (ret a) w plan.
Proof. intros _. exists a. reflexivity. Qed.

Lemma completes_bind {A B} (m : M A) (k : A -> M B) (w : world)
    (plan1 plan2 : list string) :
  stage exec m w plan1 ->
  completes exec m w plan1 ->
  (forall a, (m w).1 = Py.Ok a -> completes exec (k a) (m w).2 plan2) ->
  completes exec (bind m k) w (plan1 ++ plan2).
Proof.
  intros (c1 & P1 & I1 & F1 & S1) Hc Hk Hs. unfold completes in Hc.
  apply succeed_app in Hs as [Hs1 Hs2].
  destruct (Hc Hs1) as [a Ha]. unfold bind.
  destruct (m w) as [[a'|e] w1] eqn:Hm; cbn [fst snd] in *; [|discriminate].
  rewrite (F1 eq_refl) in *.
  apply (Hk a' eq_refl).
  destruct I1 as (_ & _ & _ & _ & ->). exact Hs2.
Qed.

Lemma completes_syscall (cmd : string) (v : bool) (w : world) :
  completes exec (syscall exec cmd v) w [cmd].
Proof.
  intros [Hs _]. rewrite syscall_eq. cbn [fst]. rewrite Hs. eauto.
Qed.

Lemma completes_bowtie2_index (ref_fa outprefix bowtie2 : string) (v : bool) (w : world) :
  completes exec (bowtie2_index exec ref_fa outprefix bowtie2 v) w
    (if any_absent (files w) (bt2_files outprefix)
     then [build_cmd ref_fa outprefix bowtie2] else []).
Proof.
  unfold completes. rewrite bowtie2_index_eq.
  destruct (any_absent (files w) (bt2_files outprefix)).
  - apply completes_syscall.
  - eauto.
Qed.

Lemma completes_sort_block (out_prefix : string) (o : options) (cf : list string) (w : world) :
  (sort o = true -> Z.min 4 (threads o) <> 0) ->
  completes exec (sort_block exec out_prefix o cf) w (sort_plan out_prefix o).
Proof.
  intros Hnz. unfold sort_block, sort_plan. destruct (sort o).
  - unfold Py.int_truediv.
    destruct (Z.eqb_spec (Z.min 4 (threads o)) 0) as [E|_]; [destruct (Hnz eq_refl E)|].
    apply (completes_bind _ _ _ [_] [_]); [apply stage_syscall | apply completes_syscall |].
    intros _ _.
    apply (completes_bind _ _ _ [_] []); [apply stage_syscall | apply completes_syscall |].
    intros _ _. apply completes_ret.
  - apply completes_ret.
Qed.

Lemma completes_tools_phase reads_fwd reads_rev ref_fa out_prefix o w :
  (sort o = true -> Z.min 4 (threads o) <> 0) ->
  completes exec (tools_phase exec reads_fwd reads_rev ref_fa out_prefix o) w
    (planned reads_fwd reads_rev ref_fa out_prefix o (files w)).
Proof.
  intros Hnz. unfold tools_phase, planned.
  apply completes_bind; [apply stage_bowtie2_index | apply completes_bowtie2_index |].
  intros _ _.
  apply (completes_bind _ _ _ [_]); [apply stage_syscall | apply completes_syscall |].
  intros _ _. apply completes_sort_block. exact Hnz.
Qed.

(** ** Division by zero *)

Lemma sort_block_zero (out_prefix : string) (o : options) (cf : list string) (w : world) :
  ((sort_block exec out_prefix o cf w).1 = Py.Raise Py.ZeroDivisionError ->
   sort o = true /\ Z.min 4 (threads o) = 0) /\
  (forall cf', (sort_block exec out_prefix o cf w).1 = Py.Ok cf' ->
   sort o = true -> Z.min 4 (threads o) <> 0).
Proof.
  unfold sort_block. destruct (sort o); [|split; [discriminate | discriminate]].
  unfold Py.int_truediv.
  destruct (Z.eqb_spec (Z.min 4 (threads o)) 0) as [E|E].
  - split; [auto | discriminate].
  - split; [|auto]. unfold bind. rewrite syscall_eq.
    destruct (exec _ (files w)).1; cbv beta iota; [|discriminate].
    rewrite syscall_eq.
    destruct (exec _ _).1; cbv beta iota; discriminate.
Qed.

Lemma tools_phase_zero reads_fwd reads_rev ref_fa out_prefix o w :
  ((tools_phase exec reads_fwd reads_rev ref_fa out_prefix o w).1 =
     Py.Raise Py.ZeroDivisionError ->
   sort o = true /\ Z.min 4 (threads o) = 0) /\
  (forall cf, (tools_phase exec reads_fwd reads_rev ref_fa out_prefix o w).1 = Py.Ok cf ->
   sort o = true -> Z.min 4 (threads o) <> 0).
Proof.
  unfold tools_phase, bind.
  pose proof (bowtie2_index_raise exec ref_fa (map_index out_prefix) (bowtie2 o)
                (verbose o) w) as R1.
  destruct (bowtie2_index _ _ _ _ _ w) as [[[]|e1] w1].
  - pose proof (syscall_raise exec
        (map_cmd reads_fwd reads_rev ref_fa out_prefix o) (verbose o) w1) as R2.
    destruct (syscall _ _ _ w1) as [[[]|e2] w2].
    + apply sort_block_zero.
    + cbn [fst] in *. split; [|discriminate].
      intros He. injection He as ->. specialize (R2 _ eq_refl). discriminate.
  - cbn [fst] in *. split; [|discriminate].
    intros He. injection He as ->. specialize (R1 _ eq_refl). discriminate.
Qed.

(** ** Permissions *)

(** The tools phase leaves the permissions as they are. *)
Lemma syscall_undeletable (cmd : string) (v : bool) (w : world) :
  undeletable (syscall exec cmd v w).2 = undeletable w.
Proof. rewrite syscall_eq. reflexivity. Qed.

Lemma bowtie2_index_undeletable (ref_fa outprefix bowtie2 : string) (v : bool) (w : world) :
  undeletable (bowtie2_index exec ref_fa outprefix bowtie2 v w).2 = undeletable w.
Proof.
  rewrite bowtie2_index_eq.
  destruct (any_absent (files w) (bt2_files outprefix));
    [apply syscall_undeletable | reflexivity].
Qed.

Lemma sort_block_undeletable (out_prefix : string) (o : options) (cf : list string)
    (w : world) :
  undeletable (sort_block exec out_prefix o cf w).2 = undeletable w.
Proof.
  unfold sort_block. destruct (sort o); [|reflexivity].
  destruct (Py.int_truediv 500 (Z.min 4 (threads o))) as [m|]; [|reflexivity].
  unfold bind. rewrite syscall_eq.
  destruct (exec _ (files w)).1; cbv beta iota; [|reflexivity].
  rewrite syscall_eq.
  destruct (exec _ _).1; cbv beta iota; reflexivity.
Qed.

Lemma tools_phase_undeletable reads_fwd reads_rev ref_fa out_prefix o w :
  undeletable (tools_phase exec reads_fwd reads_rev ref_fa out_prefix o w).2 =
  undeletable w.
Proof.
  unfold tools_phase, bind.
  pose proof (bowtie2_index_undeletable ref_fa (map_index out_prefix) (bowtie2 o)
                (verbose o) w) as H1.
  destruct (bowtie2_index _ _ _ _ _ w) as [[[]|e1] w1]; cbn [snd] in *; [|exact H1].
  pose proof (syscall_undeletable
                (map_cmd reads_fwd reads_rev ref_fa out_prefix o) (verbose o) w1) as H2.
  destruct (syscall _ _ _ w1) as [[[]|e2] w2]; cbn [snd] in *; [|congruence].
  rewrite sort_block_undeletable. congruence.
Qed.

(** ** The outcome of a run, case by case *)

Lemma run_bowtie2_outcome reads_fwd reads_rev ref_fa out_prefix o w :
  let res := run_bowtie2 exec reads_fwd reads_rev ref_fa out_prefix o w in
  let plan := planned reads_fwd reads_rev ref_fa out_prefix o (files w) in
  exists evs,
    trace res.2 = trace w ++ evs /\
    match res.1 with
    | Py.Ok _ =>
        invocations evs = plan /\
        unlinked evs = cleaned out_prefix o /\
        succeed exec plan (files w) /\
        files res.2 = delete_all (cleaned out_prefix o) (run_cmds exec plan (files w)) /\
        (forall f, f ∈ cleaned out_prefix o ->
           is_Some (run_cmds exec plan (files w) !! f) /\ f ∉ undeletable w) /\
        (sort o = true -> Z.min 4 (threads o) <> 0)
    | Py.Raise (Py.SystemExit c) =>
        exists pre post,
          plan = pre ++ c :: post /\
          invocations evs = pre ++ [c] /\
          unlinked evs = [] /\
          succeed exec pre (files w) /\
          (exec c (run_cmds exec pre (files w))).1 = false /\
          files res.2 = run_cmds exec (pre ++ [c]) (files w)
    | Py.Raise Py.ZeroDivisionError =>
        sort o = true /\ Z.min 4 (threads o) = 0 /\
        invocations evs = plan /\
        unlinked evs = [] /\
        succeed exec plan (files w) /\
        files res.2 = run_cmds exec plan (files w)
    | Py.Raise (Py.FileNotFoundError p) =>
        exists done rest,
          cleaned out_prefix o = done ++ p :: rest /\
          invocations evs = plan /\
          unlinked evs = done /\
          succeed exec plan (files w) /\
          files res.2 = delete_all done (run_cmds exec plan (files w)) /\
          files res.2 !! p = None /\
          (sort o = true -> Z.min 4 (threads o) <> 0)
    | Py.Raise (Py.PermissionError p) =>
        exists done rest,
          cleaned out_prefix o = done ++ p :: rest /\
          invocations evs = plan /\
          unlinked evs = done /\
          succeed exec plan (files w) /\
          files res.2 = delete_all done (run_cmds exec plan (files w)) /\
          is_Some (files res.2 !! p) /\
          p ∈ undeletable w /\
          (sort o = true -> Z.min 4 (threads o) <> 0)
    | Py.Raise (Py.Error _) => False
    end.
Proof.
  intros res plan. subst res. rewrite run_bowtie2_split.
  destruct (stage_tools_phase exec reads_fwd reads_rev ref_fa out_prefix o w)
    as (cmds & _ & I & F & S).
  pose proof (fails_tools_phase reads_fwd reads_rev ref_fa out_prefix o w) as Hfail.
  pose proof (tools_phase_ok exec reads_fwd reads_rev ref_fa out_prefix o w) as Hcf.
  pose proof (tools_phase_zero reads_fwd reads_rev ref_fa out_prefix o w) as [Hz Hnz].
  pose proof (tools_phase_undeletable reads_fwd reads_rev ref_fa out_prefix o w) as Hperm.
  unfold fails in Hfail. fold plan in F, Hfail. unfold bind.
  destruct (tools_phase exec reads_fwd reads_rev ref_fa out_prefix o w) as [[cf|e] w1];
    cbn [fst snd] in *.
  - rewrite (Hcf cf eq_refl). rewrite (F eq_refl) in *. clear Hcf F Hfail Hz.
    specialize (S cf eq_refl). specialize (Hnz cf eq_refl).
    destruct I as (evs1 & T1 & I1 & U1 & F1).
    pose proof (unlink_all_spec (cleaned out_prefix o) w1) as (done & _ & Hw & Hok).
    pose proof (unlink_all_raise (cleaned out_prefix o) w1) as Hr.
    pose proof (unlink_all_ok_present (cleaned out_prefix o) w1) as Hp.
    destruct (unlink_all (cleaned out_prefix o) w1) as [[u|e] w2]; cbn [fst snd] in *.
    + rewrite (Hok u eq_refl) in Hw. subst w2. cbn [files trace].
      exists (evs1 ++ map Unlink (cleaned out_prefix o)).
      split; [rewrite T1, app_assoc; reflexivity|].
      rewrite invocations_app, invocations_unlinks, app_nil_r,
              unlinked_app, unlinked_unlinks, U1, F1.
      split; [exact I1|]. split; [reflexivity|]. split; [exact S|].
      split; [reflexivity|]. split; [|exact Hnz].
      intros f Hf. rewrite <- F1, <- Hperm. exact (Hp u eq_refl f Hf).
    + destruct (Hr e eq_refl) as (done' & p & rest & Hcl & -> & Hcase).
      cbn [files trace].
      assert (Hcommon :
        exists evs, trace w1 ++ map Unlink done' = trace w ++ evs /\
          invocations evs = plan /\ unlinked evs = done').
      { exists (evs1 ++ map Unlink done').
        split; [rewrite T1, app_assoc; reflexivity|].
        rewrite invocations_app, invocations_unlinks, app_nil_r,
                unlinked_app, unlinked_unlinks, U1. auto. }
      destruct Hcommon as (evs & T & I & U). exists evs. split; [exact T|].
      rewrite F1 in *.
      destruct Hcase as [(-> & Hnone) | (-> & Hsome & Hin)].
      * exists done', rest. auto 10.
      * exists done', rest. rewrite Hperm in Hin. auto 10.
  - destruct I as (evs1 & T1 & I1 & U1 & F1). exists evs1. split; [exact T1|].
    destruct (Hfail e eq_refl)
      as [(-> & (evs2 & T2 & I2 & U2 & F2) & Hs)
         | (pre & c & post & -> & Hplan & Hpre & Hc & (evs2 & T2 & I2 & U2 & F2))];
      rewrite T1 in T2; apply app_inv_head in T2; subst evs2.
    + destruct (Hz eq_refl) as [Hsort Hmin]. auto 10.
    + exists pre, post. auto 10.
Qed.

(** ** Calling the index builder twice *)

(** X9. Ensuring the index twice is ensuring it once: when the index build
    leaves the six files in place, a second call right after the first
    invokes nothing and changes nothing. *)
Theorem bowtie2_index_twice (ref_fa outprefix bowtie2 : string) (v : bool) (w : world) :
  (forall f, f ∈ bt2_files outprefix ->
     is_Some ((exec (build_cmd ref_fa outprefix bowtie2) (files w)).2 !! f)) ->
  bind (bowtie2_index exec ref_fa outprefix bowtie2 v)
       (fun _ => bowtie2_index exec ref_fa outprefix bowtie2 v) w
  = bowtie2_index exec ref_fa outprefix bowtie2 v w.
Proof.
  intros Hbuild. unfold bind. rewrite bowtie2_index_eq.
  destruct (any_absent (files w) (bt2_files outprefix)) eqn:Hab.
  - rewrite syscall_eq.
    destruct (exec (build_cmd ref_fa outprefix bowtie2) (files w)).1;
      cbv beta iota; [|reflexivity].
    rewrite bowtie2_index_eq. cbn [files].
    rewrite (proj2 (any_absent_false _ _) Hbuild). reflexivity.
  - cbv beta iota. rewrite bowtie2_index_eq, Hab. reflexivity.
Qed.

(** ** Failures *)

(** X10. A failing tool stops the run at once: the run raises with the
    command that failed, every planned command before it ran with success,
    no planned command after it is invoked, and nothing is unlinked (what
    the tools wrote stays on disk). *)
Theorem run_bowtie2_tool_failure reads_fwd reads_rev ref_fa out_prefix o w c :
  let res := run_bowtie2 exec reads_fwd reads_rev ref_fa out_prefix o w in
  res.1 = Py.Raise (Py.SystemExit c) ->
  exists evs pre post,
    trace res.2 = trace w ++ evs /\
    planned reads_fwd reads_rev ref_fa out_prefix o (files w) = pre ++ c :: post /\
    invocations evs = pre ++ [c] /\
    unlinked evs = [] /\
    succeed exec pre (files w) /\
    (exec c (run_cmds exec pre (files w))).1 = false /\
    files res.2 = run_cmds exec (pre ++ [c]) (files w).
Proof.
  intros res Hres.
  destruct (run_bowtie2_outcome reads_fwd reads_rev ref_fa out_prefix o w)
    as (evs & T & H).
  fold res in T, H. rewrite Hres in H.
  destruct H as (pre & post & H). exists evs, pre, post. tauto.
Qed.

(** X11. With [sort] and a thread count of 0 the run never returns
    normally: unless a tool fails first, the index build and the pipeline
    run, then the division [500 / 0] raises; nothing is sorted, indexed or
    unlinked. *)
Theorem run_bowtie2_zero_threads reads_fwd reads_rev ref_fa out_prefix o w :
  let res := run_bowtie2 exec reads_fwd reads_rev ref_fa out_prefix o w in
  sort o = true ->
  threads o = 0 ->
  (forall u, res.1 <> Py.Ok u) /\
  (tool_failed res.1 = false ->
   res.1 = Py.Raise Py.ZeroDivisionError /\
   exists evs,
     trace res.2 = trace w ++ evs /\
     invocations evs =
       (if any_absent (files w) (bt2_files (map_index out_prefix))
        then [build_cmd ref_fa (map_index out_prefix) (bowtie2 o)] else []) ++
       [map_cmd reads_fwd reads_rev ref_fa out_prefix o] /\
     unlinked evs = []).
Proof.
  intros res Hsort Ht.
  assert (Hmin : Z.min 4 (threads o) = 0) by (rewrite Ht; reflexivity).
  destruct (run_bowtie2_outcome reads_fwd reads_rev ref_fa out_prefix o w)
    as (evs & T & H).
  fold res in T, H.
  assert (Hplan : planned reads_fwd reads_rev ref_fa out_prefix o (files w) =
            (if any_absent (files w) (bt2_files (map_index out_prefix))
             then [build_cmd ref_fa (map_index out_prefix) (bowtie2 o)] else []) ++
            [map_cmd reads_fwd reads_rev ref_fa out_prefix o]).
  { unfold planned. rewrite Hsort, Hmin. cbn [Py.int_truediv Z.eqb].
    rewrite app_nil_r. reflexivity. }
  destruct res.1 as [u|[msg|c|p|p|]].
  - destruct H as (_ & _ & _ & _ & _ & Hnz). destruct (Hnz Hsort Hmin).
  - destruct H.
  - split; [discriminate|]. discriminate.
  - destruct H as (done & rest & _ & _ & _ & _ & _ & _ & Hnz).
    destruct (Hnz Hsort Hmin).
  - destruct H as (done & rest & _ & _ & _ & _ & _ & _ & _ & Hnz).
    destruct (Hnz Hsort Hmin).
  - split; [discriminate|]. intros _. split; [reflexivity|].
    destruct H as (_ & _ & I & U & _). exists evs. rewrite <- Hplan. auto.
Qed.

(** X12. When the clean-up fails on a missing file, every tool had run
    with success; the queued files before the missing one are already
    removed, the missing one and those after it are not touched. *)
Theorem run_bowtie2_cleanup_failure reads_fwd reads_rev ref_fa out_prefix o w p :
  let res := run_bowtie2 exec reads_fwd reads_rev ref_fa out_prefix o w in
  let plan := planned reads_fwd reads_rev ref_fa out_prefix o (files w) in
  res.1 = Py.Raise (Py.FileNotFoundError p) ->
  exists evs done rest,
    trace res.2 = trace w ++ evs /\
    cleaned out_prefix o = done ++ p :: rest /\
    invocations evs = plan /\
    succeed exec plan (files w) /\
    unlinked evs = done /\
    files res.2 = delete_all done (run_cmds exec plan (files w)) /\
    files res.2 !! p = None /\
    (forall f, f ∈ rest -> files res.2 !! f = run_cmds exec plan (files w) !! f).
Proof.
  intros res plan Hres.
  destruct (run_bowtie2_outcome reads_fwd reads_rev ref_fa out_prefix o w)
    as (evs & T & H).
  fold res plan in T, H. rewrite Hres in H.
  destruct H as (done & rest & Hcl & I & U & S & Fl & Hp & _).
  exists evs, done, rest.
  split; [exact T|]. split; [exact Hcl|]. split; [exact I|]. split; [exact S|].
  split; [exact U|]. split; [exact Fl|]. split; [exact Hp|].
  intros f Hf. rewrite Fl. apply delete_all_lookup_notin.
  pose proof (NoDup_cleaned out_prefix o) as Hnd. rewrite Hcl in Hnd.
  apply NoDup_app in Hnd as (_ & Hdisj & _).
  intros Hin. apply (Hdisj f Hin). right. exact Hf.
Qed.

Lemma run_bowtie2_completes reads_fwd reads_rev ref_fa out_prefix o w :
  let plan := planned reads_fwd reads_rev ref_fa out_prefix o (files w) in
  succeed exec plan (files w) ->
  (sort o = true -> Z.min 4 (threads o) <> 0) ->
  (forall f, f ∈ cleaned out_prefix o ->
     is_Some (run_cmds exec plan (files w) !! f) /\ f ∉ undeletable w) ->
  (run_bowtie2 exec reads_fwd reads_rev ref_fa out_prefix o w).1 = Py.Ok tt.
Proof.
  intros plan Hs Hnz Hall. rewrite run_bowtie2_split.
  destruct (completes_tools_phase reads_fwd reads_rev ref_fa out_prefix o w Hnz Hs)
    as [cf Hcf].
  destruct (stage_tools_phase exec reads_fwd reads_rev ref_fa out_prefix o w)
    as (cmds & _ & I & F & _).
  pose proof (tools_phase_ok exec reads_fwd reads_rev ref_fa out_prefix o w) as Hcl.
  pose proof (tools_phase_undeletable reads_fwd reads_rev ref_fa out_prefix o w)
    as Hperm.
  unfold bind.
  destruct (tools_phase exec reads_fwd reads_rev ref_fa out_prefix o w) as [[cf'|e] w1];
    cbn [fst snd] in *; [|discriminate].
  rewrite (Hcl cf' eq_refl). rewrite (F eq_refl) in I.
  destruct I as (_ & _ & _ & _ & Hfs).
  apply unlink_all_completes; [apply NoDup_cleaned|].
  rewrite Hfs, Hperm. exact Hall.
Qed.

(** X13. A run returns normally exactly when every planned command
    succeeds, the sort thread count is not 0, and every queued file exists
    once the tools have run and may be removed. *)
Theorem run_bowtie2_ok_iff reads_fwd reads_rev ref_fa out_prefix o w :
  let res := run_bowtie2 exec reads_fwd reads_rev ref_fa out_prefix o w in
  let plan := planned reads_fwd reads_rev ref_fa out_prefix o (files w) in
  res.1 = Py.Ok tt <->
  succeed exec plan (files w) /\
  (sort o = true -> Z.min 4 (threads o) <> 0) /\
  (forall f, f ∈ cleaned out_prefix o ->
     is_Some (run_cmds exec plan (files w) !! f) /\ f ∉ undeletable w).
Proof.
  intros res plan. split.
  - intros Hres.
    destruct (run_bowtie2_outcome reads_fwd reads_rev ref_fa out_prefix o w)
      as (evs & T & H).
    fold res plan in T, H. rewrite Hres in H. tauto.
  - intros (Hs & Hnz & Hall).
    exact (run_bowtie2_completes reads_fwd reads_rev ref_fa out_prefix o w Hs Hnz Hall).
Qed.


(** ** What the clean-up leaves alone *)

(** X14. The run never unlinks the final alignment file: [out_prefix.bam]
    is not among the unlinked paths and is at the end what the invoked tools
    made of it, whether the run succeeds or fails. *)
Theorem run_bowtie2_keeps_final_bam reads_fwd reads_rev ref_fa out_prefix o w :
  let res := run_bowtie2 exec reads_fwd reads_rev ref_fa out_prefix o w in
  exists evs,
    trace res.2 = trace w ++ evs /\
    (final_bam out_prefix ∉ unlinked evs) /\
    files res.2 !! final_bam out_prefix =
      run_cmds exec (invocations evs) (files w) !! final_bam out_prefix.
Proof.
  intros res.
  destruct (run_bowtie2_effects exec reads_fwd reads_rev ref_fa out_prefix o w)
    as (cmds & done & evs & _ & Pd & T & I & U & Fl & _).
  fold res in T, Fl. exists evs. split; [exact T|].
  assert (Hnot : final_bam out_prefix ∉ done).
  { intros Hin. apply (final_bam_not_cleaned out_prefix o).
    exact (elem_of_prefix _ _ _ Pd Hin). }
  rewrite U, I, Fl. split; [exact Hnot|].
  apply delete_all_lookup_notin. exact Hnot.
Qed.

(** X15. An index that is already there is reused: when the six index
    files exist the index builder is not invoked, and the first invocation
    of the run is the mapping pipeline, followed by at most the sort and the
    indexing. *)
Theorem run_bowtie2_reuses_index reads_fwd reads_rev ref_fa out_prefix o w :
  let res := run_bowtie2 exec reads_fwd reads_rev ref_fa out_prefix o w in
  (forall f, f ∈ bt2_files (map_index out_prefix) -> is_Some (files w !! f)) ->
  exists evs rest,
    trace res.2 = trace w ++ evs /\
    invocations evs = map_cmd reads_fwd reads_rev ref_fa out_prefix o :: rest /\
    rest `prefix_of` sort_plan out_prefix o.
Proof.
  intros res Hall.
  destruct (run_bowtie2_outcome reads_fwd reads_rev ref_fa out_prefix o w)
    as (evs & T & H).
  fold res in T, H.
  assert (Hplan : planned reads_fwd reads_rev ref_fa out_prefix o (files w) =
            map_cmd reads_fwd reads_rev ref_fa out_prefix o :: sort_plan out_prefix o).
  { unfold planned. rewrite (proj2 (any_absent_false _ _) Hall). reflexivity. }
  rewrite Hplan in H. exists evs.
  destruct res.1 as [u|[msg|c|p|p|]].
  - exists (sort_plan out_prefix o). split; [exact T|]. split; [tauto | reflexivity].
  - destruct H.
  - destruct H as (pre & post & Hp & I & _). destruct pre as [|x pre].
    + injection Hp as <- _. exists []. split; [exact T|].
      split; [exact I | apply prefix_nil].
    + injection Hp as <- Hsp. exists (pre ++ [c]). split; [exact T|].
      split; [exact I|]. rewrite Hsp. exists post.
      rewrite <- app_assoc. reflexivity.
  - destruct H as (done & rest & _ & I & _).
    exists (sort_plan out_prefix o). split; [exact T|]. split; [exact I | reflexivity].
  - destruct H as (done & rest & _ & I & _).
    exists (sort_plan out_prefix o). split; [exact T|]. split; [exact I | reflexivity].
  - exists (sort_plan out_prefix o). split; [exact T|]. split; [tauto | reflexivity].
Qed.

(** ** The alignment files *)

Lemma succeed_always (cmds : list string) (fs : gmap string string) :
  (forall cmd fs', (exec cmd fs').1 = true) -> succeed exec cmds fs.
Proof.
  intros H. revert fs. induction cmds as [|c cmds IH]; intros fs; simpl; auto.
Qed.

Lemma run_cmds_created (cmds : list string) (fs : gmap string string) (f : string) :
  cmds <> [] ->
  (forall cmd fs', is_Some ((exec cmd fs').2 !! f)) ->
  is_Some (run_cmds exec cmds fs !! f).
Proof.
  intros Hne H. destruct cmds as [|c cmds]; [contradiction|].
  simpl. apply run_cmds_keep; [intros cmd fs' _; apply H | apply H].
Qed.

Lemma planned_nonempty reads_fwd reads_rev ref_fa out_prefix o fs :
  planned reads_fwd reads_rev ref_fa out_prefix o fs <> [].
Proof.
  unfold planned. destruct (any_absent fs (bt2_files (map_index out_prefix)));
    discriminate.
Qed.

(** A run returns normally when every tool succeeds and leaves the queued
    files in place, and these may be removed. *)
Lemma run_bowtie2_well_behaved reads_fwd reads_rev ref_fa out_prefix o w
    (outputs : list string) :
  (forall cmd fs, (exec cmd fs).1 = true) ->
  (forall cmd fs f, f ∈ outputs -> is_Some ((exec cmd fs).2 !! f)) ->
  (forall f, f ∈ outputs -> f ∉ undeletable w) ->
  (forall f, f ∈ cleaned out_prefix o -> f ∈ outputs) ->
  (sort o = true -> Z.min 4 (threads o) <> 0) ->
  (run_bowtie2 exec reads_fwd reads_rev ref_fa out_prefix o w).1 = Py.Ok tt.
Proof.
  intros Hok Hout Hdel Hsub Hnz.
  apply run_bowtie2_completes; [apply succeed_always; exact Hok | exact Hnz|].
  intros f Hf. split; [|apply Hdel, Hsub, Hf].
  apply run_cmds_created; [apply planned_nonempty|].
  intros cmd fs'. apply Hout, Hsub, Hf.
Qed.

(** C8. The final alignment file is [out_prefix.bam].  Without [sort] the
    pipeline is redirected to it: unless a tool fails the run invokes the
    index build (when needed) and that pipeline and nothing else, it never
    unlinks [out_prefix.unsorted.bam], and it leaves that path as these two
    commands leave it.  With [sort] the pipeline is redirected to
    [out_prefix.unsorted.bam], which the sort reads to write
    [out_prefix.bam]; a run that returns normally has unlinked
    [out_prefix.unsorted.bam] last and the file is gone.  In both cases the
    run does return normally when the tools succeed and leave the queued
    files in place. *)
Theorem run_bowtie2_bam_paths reads_fwd reads_rev ref_fa out_prefix o w :
  let res := run_bowtie2 exec reads_fwd reads_rev ref_fa out_prefix o w in
  let final := out_prefix +:+ ".bam" in
  let unsorted := out_prefix +:+ ".unsorted.bam" in
  let index_files := bt2_files (out_prefix +:+ ".map_index") in
  let build :=
    bowtie2 o +:+ "-build -q " +:+ ref_fa +:+ " " +:+ out_prefix +:+ ".map_index" in
  let before := if any_absent (files w) index_files then [build] else [] in
  let pipeline := fun target : string =>
    Py.join " "
      ([ bowtie2 o; "--threads"; Py.str (threads o); "--reorder";
         "--" +:+ bowtie2_preset o; "-X"; Py.str (max_insert o);
         "-x"; out_prefix +:+ ".map_index"; "-1"; reads_fwd; "-2"; reads_rev ]
       ++ (if remove_both_unmapped o
           then [" | awk ' !(and($2,4)) || !(and($2,8)) ' "] else [])
       ++ [ "|"; samtools o; "view"; "-bS -T"; ref_fa; "- >"; target ]) in
  let sorting :=
    [ Py.join " " [ samtools o; "sort";
                    "-@" +:+ Py.str (Z.min 4 (threads o));
                    "-m" +:+ Py.str (Z.quot 500 (Z.min 4 (threads o))) +:+ "M";
                    "-o"; final; "-O bam";
                    "-T"; out_prefix +:+ ".tmp.samtool_sort";
                    unsorted ];
      samtools o +:+ " index " +:+ final ] in
  let tools_behave := fun outputs : list string =>
    (forall cmd fs, (exec cmd fs).1 = true) /\
    (forall cmd fs f, f ∈ outputs -> is_Some ((exec cmd fs).2 !! f)) /\
    (forall f, f ∈ outputs -> f ∉ undeletable w) in
  exists evs,
    trace res.2 = trace w ++ evs /\
    (sort o = false ->
       (forall cmd, cmd ∈ invocations evs -> cmd = build \/ cmd = pipeline final) /\
       (tool_failed res.1 = false -> invocations evs = before ++ [pipeline final]) /\
       (unsorted ∉ unlinked evs) /\
       ((forall fs, ((exec build fs).2) !! unsorted = fs !! unsorted) ->
        (forall fs, ((exec (pipeline final) fs).2) !! unsorted = fs !! unsorted) ->
        files res.2 !! unsorted = files w !! unsorted) /\
       (tools_behave index_files -> res.1 = Py.Ok tt)) /\
    (sort o = true ->
       (forall u, res.1 = Py.Ok u ->
          (exists removed, unlinked evs = removed ++ [unsorted]) /\
          files res.2 !! unsorted = None) /\
       (Z.min 4 (threads o) <> 0 ->
          (tool_failed res.1 = false ->
             invocations evs = before ++ pipeline unsorted :: sorting) /\
          (tools_behave (index_files ++ [unsorted]) -> res.1 = Py.Ok tt))).
Proof.
  intros res final unsorted index_files build before pipeline sorting tools_behave.
  destruct (run_bowtie2_effects exec reads_fwd reads_rev ref_fa out_prefix o w)
    as (cmds & done & evs & P & Pd & T & I & U & Fl & Hplan & Hok).
  fold res in T, Fl, Hplan, Hok.
  assert (Hbuild : build_cmd ref_fa (map_index out_prefix) (bowtie2 o) = build)
    by apply build_cmd_eq.
  assert (Hmap : map_cmd reads_fwd reads_rev ref_fa out_prefix o =
                 pipeline (intermediate_bam out_prefix o))
    by apply map_cmd_filter_stage.
  assert (Hqueued : forall f, f ∈ cleaned out_prefix o ->
            f ∈ index_files ++ (if sort o then [unsorted] else [])).
  { intros f Hf. unfold cleaned in Hf. apply elem_of_app in Hf as [Hf|Hf].
    - apply elem_of_app. left. exact (initial_clean_files_index _ _ _ Hf).
    - apply elem_of_app. right. unfold intermediate_bam in Hf.
      destruct (sort o); exact Hf. }
  exists evs. split; [exact T|]. split; intros Hsort.
  - unfold intermediate_bam in Hmap. rewrite Hsort in Hmap.
    change (final_bam out_prefix) with final in Hmap.
    assert (Hp : planned reads_fwd reads_rev ref_fa out_prefix o (files w) =
                 before ++ [pipeline final]).
    { unfold planned. rewrite Hsort, Hbuild, Hmap, app_nil_r. reflexivity. }
    rewrite Hp in P, Hplan.
    assert (Hcmds : forall cmd, cmd ∈ cmds -> cmd = build \/ cmd = pipeline final).
    { intros cmd Hc. apply (elem_of_prefix _ _ _ P) in Hc.
      apply elem_of_app in Hc as [Hc|Hc].
      - subst before. destruct (any_absent _ _); [|inversion Hc].
        apply list_elem_of_singleton in Hc. auto.
      - apply list_elem_of_singleton in Hc. auto. }
    assert (Hdone : unsorted ∉ done).
    { intros Hin. apply (elem_of_prefix _ _ _ Pd) in Hin.
      unfold cleaned in Hin. rewrite Hsort, app_nil_r in Hin.
      apply initial_clean_files_index in Hin.
      exact (bt2_file_not_unsorted _ _ Hin eq_refl). }
    rewrite I, U.
    split; [exact Hcmds|]. split; [exact Hplan|]. split; [exact Hdone|]. split.
    + intros Hb Hm. rewrite Fl, delete_all_lookup_notin by exact Hdone.
      apply run_cmds_frame. intros cmd fs' Hc.
      destruct (Hcmds cmd Hc) as [-> | ->]; auto.
    + intros (Hsucc & Hout & Hdel).
      apply (run_bowtie2_well_behaved _ _ _ _ _ _ index_files Hsucc Hout Hdel).
      * intros f Hf. specialize (Hqueued f Hf).
        rewrite Hsort, app_nil_r in Hqueued. exact Hqueued.
      * rewrite Hsort. discriminate.
  - unfold intermediate_bam in Hmap. rewrite Hsort in Hmap.
    change (out_prefix +:+ ".unsorted.bam") with unsorted in Hmap.
    split.
    + intros u Hu. destruct (Hok u Hu) as [-> _].
      assert (Hcl : cleaned out_prefix o = initial_clean_files out_prefix o ++ [unsorted]).
      { unfold cleaned, intermediate_bam. rewrite Hsort. reflexivity. }
      split.
      * exists (initial_clean_files out_prefix o). rewrite U. exact Hcl.
      * rewrite Fl. apply delete_all_lookup_in. rewrite Hcl.
        apply elem_of_app. right. apply list_elem_of_singleton. reflexivity.
    + intros Hnz. split.
      * intros Hnf. rewrite I, (Hplan Hnf). unfold planned.
        rewrite Hsort, Hbuild, Hmap. unfold Py.int_truediv.
        destruct (Z.eqb_spec (Z.min 4 (threads o)) 0) as [E|_]; [contradiction|].
        unfold sort_cmd, index_cmd, intermediate_bam. rewrite Hsort. reflexivity.
      * intros (Hsucc & Hout & Hdel).
        apply (run_bowtie2_well_behaved _ _ _ _ _ _ (index_files ++ [unsorted])
                 Hsucc Hout Hdel).
        -- intros f Hf. specialize (Hqueued f Hf). rewrite Hsort in Hqueued.
           exact Hqueued.
        -- intros _. exact Hnz.
Qed.

(** ** The memory of the sort *)

(** X16. For a thread count of at least 1, a run with [sort] in which no
    tool fails invokes the sort with a per-thread memory [-m<thread_mem>M]
    between 125 and 500, and the memory of all [min(4, threads)] sort
    threads together is at most 500 and more than 496. *)
Theorem sort_memory_budget reads_fwd reads_rev ref_fa out_prefix o w :
  let res := run_bowtie2 exec reads_fwd reads_rev ref_fa out_prefix o w in
  sort o = true ->
  1 <= threads o ->
  tool_failed res.1 = false ->
  exists evs before thread_mem,
    trace res.2 = trace w ++ evs /\
    invocations evs =
      before ++
      [ Py.join " " [ samtools o; "sort";
                      "-@" +:+ Py.str (Z.min 4 (threads o));
                      "-m" +:+ Py.str thread_mem +:+ "M";
                      "-o"; out_prefix +:+ ".bam";
                      "-O bam";
                      "-T"; out_prefix +:+ ".tmp.samtool_sort";
                      out_prefix +:+ ".unsorted.bam" ];
        samtools o +:+ " index " +:+ out_prefix +:+ ".bam" ] /\
    125 <= thread_mem <= 500 /\
    496 < thread_mem * Z.min 4 (threads o) <= 500.
Proof.
  intros res Hsort Ht Hnf.
  destruct (run_bowtie2_effects exec reads_fwd reads_rev ref_fa out_prefix o w)
    as (cmds & done & evs & _ & _ & T & I & _ & _ & Hplan & _).
  fold res in T, Hplan.
  exists evs. rewrite I, (Hplan Hnf). unfold planned.
  rewrite Hsort, (int_truediv_threads _ Ht).
  eexists. exists (500 / Z.min 4 (threads o)).
  split; [exact T|]. split.
  - rewrite app_assoc. f_equal.
    unfold sort_cmd, index_cmd, final_bam, intermediate_bam. rewrite Hsort.
    reflexivity.
  - pose proof (sort_threads_table _ Ht) as Htab.
    destruct (threads o =? 1); [|destruct (threads o =? 2); [|destruct (threads o =? 3)]];
      injection Htab as -> ->; lia.
Qed.

End RunOutcomes.

(** ** Witnesses *)

Lemma bowtie2_index_twice_witness :
  (forall f, f ∈ bt2_files "ref" ->
     is_Some ((fake_tools (bt2_files "ref")
                 (build_cmd "ref.fa" "ref" "bowtie2") (files empty_world)).2 !! f)) /\
  bind (bowtie2_index (fake_tools (bt2_files "ref")) "ref.fa" "ref" "bowtie2" false)
       (fun _ => bowtie2_index (fake_tools (bt2_files "ref")) "ref.fa" "ref" "bowtie2" false)
       empty_world
  = bowtie2_index (fake_tools (bt2_files "ref")) "ref.fa" "ref" "bowtie2" false empty_world.
Proof.
  assert (H : forall f, f ∈ bt2_files "ref" ->
     is_Some ((fake_tools (bt2_files "ref")
                 (build_cmd "ref.fa" "ref" "bowtie2") (files empty_world)).2 !! f))
    by (intros f Hf; apply fake_tools_create; exact Hf).
  split; [exact H|].
  exact (bowtie2_index_twice (fake_tools (bt2_files "ref")) "ref.fa" "ref" "bowtie2"
           false empty_world H).
Defined.

Lemma run_bowtie2_tool_failure_witness :
  (run_bowtie2 broken_tools "r1.fq" "r2.fq" "ref.fa" "out" default_options
     empty_world).1 = Py.Raise (Py.SystemExit "bowtie2-build -q ref.fa out.map_index") /\
  exists evs pre post,
    trace (run_bowtie2 broken_tools "r1.fq" "r2.fq" "ref.fa" "out" default_options
             empty_world).2 = trace empty_world ++ evs /\
    planned "r1.fq" "r2.fq" "ref.fa" "out" default_options (files empty_world) =
      pre ++ "bowtie2-build -q ref.fa out.map_index" :: post /\
    invocations evs = pre ++ ["bowtie2-build -q ref.fa out.map_index"] /\
    unlinked evs = [] /\
    succeed broken_tools pre (files empty_world) /\
    (broken_tools "bowtie2-build -q ref.fa out.map_index"
       (run_cmds broken_tools pre (files empty_world))).1 = false /\
    files (run_bowtie2 broken_tools "r1.fq" "r2.fq" "ref.fa" "out" default_options
             empty_world).2 =
      run_cmds broken_tools (pre ++ ["bowtie2-build -q ref.fa out.map_index"])
        (files empty_world).
Proof.
  assert (H : (run_bowtie2 broken_tools "r1.fq" "r2.fq" "ref.fa" "out" default_options
                 empty_world).1
              = Py.Raise (Py.SystemExit "bowtie2-build -q ref.fa out.map_index"))
    by (vm_compute; reflexivity).
  split; [exact H|].
  exact (run_bowtie2_tool_failure broken_tools "r1.fq" "r2.fq" "ref.fa" "out"
           default_options empty_world _ H).
Defined.

Lemma run_bowtie2_zero_threads_witness :
  sort zero_thread_options = true /\
  threads zero_thread_options = 0 /\
  (run_bowtie2 (fake_tools out_files) "r1.fq" "r2.fq" "ref.fa" "out"
     zero_thread_options empty_world).1 = Py.Raise Py.ZeroDivisionError.
Proof.
  split; [reflexivity|]. split; [reflexivity|].
  apply (proj2 (run_bowtie2_zero_threads (fake_tools out_files)
                  "r1.fq" "r2.fq" "ref.fa" "out" zero_thread_options empty_world
                  eq_refl eq_refl)).
  vm_compute. reflexivity.
Defined.

Lemma run_bowtie2_cleanup_failure_witness :
  (run_bowtie2 (fake_tools ["out.bam"]) "r1.fq" "r2.fq" "ref.fa" "out"
     default_options empty_world).1
    = Py.Raise (Py.FileNotFoundError "out.map_index.1.bt2") /\
  exists evs done rest,
    trace (run_bowtie2 (fake_tools ["out.bam"]) "r1.fq" "r2.fq" "ref.fa" "out"
             default_options empty_world).2 = trace empty_world ++ evs /\
    cleaned "out" default_options = done ++ "out.map_index.1.bt2" :: rest /\
    unlinked evs = done.
Proof.
  assert (H : (run_bowtie2 (fake_tools ["out.bam"]) "r1.fq" "r2.fq" "ref.fa" "out"
                 default_options empty_world).1
              = Py.Raise (Py.FileNotFoundError "out.map_index.1.bt2"))
    by (vm_compute; reflexivity).
  split; [exact H|].
  destruct (run_bowtie2_cleanup_failure (fake_tools ["out.bam"])
              "r1.fq" "r2.fq" "ref.fa" "out" default_options empty_world _ H)
    as (evs & done & rest & T & Hcl & _ & _ & U & _).
  exists evs, done, rest. auto.
Defined.

Lemma run_bowtie2_reuses_index_witness :
  (forall f, f ∈ bt2_files (map_index "out") -> is_Some (files indexed_world !! f)) /\
  exists evs rest,
    trace (run_bowtie2 broken_tools "r1.fq" "r2.fq" "ref.fa" "out"
             default_options indexed_world).2 = trace indexed_world ++ evs /\
    invocations evs =
      map_cmd "r1.fq" "r2.fq" "ref.fa" "out" default_options :: rest /\
    rest `prefix_of` sort_plan "out" default_options.
Proof.
  assert (H : forall f, f ∈ bt2_files (map_index "out") ->
                is_Some (files indexed_world !! f)).
  { apply any_absent_false. vm_compute. reflexivity. }
  split; [exact H|].
  exact (run_bowtie2_reuses_index broken_tools "r1.fq" "r2.fq" "ref.fa" "out"
           default_options indexed_world H).
Defined.

Lemma run_bowtie2_bam_paths_witness :
  (run_bowtie2 (fake_tools out_files) "r1.fq" "r2.fq" "ref.fa" "out"
     sorting_options empty_world).1 = Py.Ok tt /\
  exists evs,
    trace (run_bowtie2 (fake_tools out_files) "r1.fq" "r2.fq" "ref.fa" "out"
             sorting_options empty_world).2 = trace empty_world ++ evs /\
    invocations evs =
      [ "bowtie2-build -q ref.fa out.map_index";
        "bowtie2 --threads 3 --reorder --very-sensitive-local -X 1000 -x out.map_index -1 r1.fq -2 r2.fq  | awk ' !(and($2,4)) || !(and($2,8)) '  | samtools view -bS -T ref.fa - > out.unsorted.bam";
        "samtools sort -@3 -m166M -o out.bam -O bam -T out.tmp.samtool_sort out.unsorted.bam";
        "samtools index out.bam" ] /\
    (exists removed, unlinked evs = removed ++ ["out.unsorted.bam"]) /\
    files (run_bowtie2 (fake_tools out_files) "r1.fq" "r2.fq" "ref.fa" "out"
             sorting_options empty_world).2 !! "out.unsorted.bam" = None.
Proof.
  destruct (run_bowtie2_bam_paths (fake_tools out_files) "r1.fq" "r2.fq" "ref.fa" "out"
              sorting_options empty_world) as (evs & T & _ & Hsort).
  destruct (Hsort eq_refl) as (Hgone & Hrun).
  assert (Hnz : Z.min 4 (threads sorting_options) <> 0) by (simpl; lia).
  destruct (Hrun Hnz) as (Hinv & Hbehave).
  assert (Hres : (run_bowtie2 (fake_tools out_files) "r1.fq" "r2.fq" "ref.fa" "out"
                    sorting_options empty_world).1 = Py.Ok tt).
  { apply Hbehave. split; [reflexivity|]. split.
    - intros cmd fs f Hf. apply fake_tools_create.
      apply elem_of_app in Hf as [Hf|Hf]; apply elem_of_app; [left; exact Hf|].
      right. apply list_elem_of_singleton in Hf as ->. left.
    - intros f _. apply not_elem_of_empty. }
  split; [exact Hres|]. exists evs. split; [exact T|].
  split; [apply Hinv; rewrite Hres; reflexivity|].
  exact (Hgone tt Hres).
Defined.

Lemma sort_memory_budget_witness :
  sort sorting_options = true /\
  1 <= threads sorting_options /\
  tool_failed
    (run_bowtie2 (fake_tools out_files) "r1.fq" "r2.fq" "ref.fa" "out"
       sorting_options empty_world).1 = false /\
  exists evs before thread_mem,
    trace (run_bowtie2 (fake_tools out_files) "r1.fq" "r2.fq" "ref.fa" "out"
             sorting_options empty_world).2 = trace empty_world ++ evs /\
    invocations evs =
      before ++
      [ Py.join " " [ "samtools"; "sort"; "-@3";
                      "-m" +:+ Py.str thread_mem +:+ "M";
                      "-o"; "out.bam"; "-O bam";
                      "-T"; "out.tmp.samtool_sort"; "out.unsorted.bam" ];
        "samtools index out.bam" ] /\
    125 <= thread_mem <= 500 /\
    496 < thread_mem * 3 <= 500.
Proof.
  assert (Ht : 1 <= threads sorting_options) by (simpl; lia).
  assert (Hnf : tool_failed
            (run_bowtie2 (fake_tools out_files) "r1.fq" "r2.fq" "ref.fa" "out"
               sorting_options empty_world).1 = false) by (vm_compute; reflexivity).
  split; [reflexivity|]. split; [exact Ht|]. split; [exact Hnf|].
  exact (sort_memory_budget (fake_tools out_files) "r1.fq" "r2.fq" "ref.fa" "out"
           sorting_options empty_world eq_refl Ht Hnf).
Defined.

